(** * Document store adapter: save / retrieve / delete embeddings

    A shallow embedding of the three HTTP handlers

    - [save_embeddings]      (save-embeddings/main.py)
    - [retrieve_embeddings]  (retrieve-embeddings/main.py)
    - [delete_embeddings]    (delete-embeddings/main.py)

    over an explicit model of the object store they talk to.  The handlers
    are written in a small state-and-exception monad whose state is the
    store; every call of the storage client is recorded in a call log and
    may be made to raise by a fault plan, so that "no store access" and
    "the error is swallowed" are statements about the model.

    The fourth handler, [scrape_linkedin] (cloud-function-linkedin/main.py),
    forwards a request to another service; it is embedded over a model of
    that service.  Left out: what the handlers [print]. *)

From Stdlib Require Import ZArith Lia Ascii.
From stdpp Require Import base strings list gmap fin_maps sorting pretty.


(** ** JSON values

    What [request.get_json] and [json.loads] produce and what [jsonify] and
    [json.dumps] consume.  A Python [dict] is kept as an association list in
    insertion order.  Numbers are integers: the handlers never look inside a
    number, and non-integer literals are outside this model. *)

#[warnings="-register-all"]
Inductive json : Type :=
  | JNull
  | JBool (b : bool)
  | JInt (z : Z)
  | JStr (s : string)
  | JArr (items : list json)
  | JObj (fields : list (string * json)).

(** Python truth value, as tested by [if not request_json] and
    [if document_id]. *)
Definition py_truthy (v : json) : bool :=
  match v with
  | JNull => false
  | JBool b => b
  | JInt z => negb (Z.eqb z 0)
  | JStr s => negb (bool_decide (s = ""))
  | JArr items => negb (bool_decide (items = []))
  | JObj fields => negb (bool_decide (fields = []))
  end.

(** [d[key]] / [key in d] on an association list. *)
Fixpoint dict_lookup {A} (key : string) (d : list (string * A)) : option A :=
  match d with
  | [] => None
  | (k, v) :: d' => if bool_decide (k = key) then Some v else dict_lookup key d'
  end.

(** ** Strings *)

(** [needle in haystack] for two Python strings. *)
Fixpoint is_substring (needle haystack : string) : bool :=
  String.prefix needle haystack ||
  match haystack with
  | EmptyString => false
  | String _ rest => is_substring needle rest
  end.

(** [s.split(sep)] for a one-character separator. *)
Fixpoint str_split (sep : Ascii.ascii) (s : string) : list string :=
  match s with
  | EmptyString => [EmptyString]
  | String c rest =>
      if bool_decide (c = sep) then EmptyString :: str_split sep rest
      else match str_split sep rest with
           | [] => [String c EmptyString]
           | part :: parts => String c part :: parts
           end
  end.

Definition slash : Ascii.ascii := "/"%char.

(** ** The Python runtime the handlers rely on

    [json.dumps], [json.loads] and [repr] are library code, not code of the
    repository: they are parameters of the development.  [json_loads]
    returns [None] where [json.loads] raises. *)

Class PyRuntime : Type := {
  json_dumps : json → string;
  json_loads : string → option json;
  py_repr : json → string;
}.

(** ** The object store *)

Definition BUCKET_NAME : string := "myformsnapper-embeddings".

(** One entry per request sent to the storage service. *)
Inductive api_call : Type :=
  | BucketExists
  | CreateBucket
  | Upload (name data : string)
  | BlobExists (name : string)
  | Download (name : string)
  | ListBlobs (prefix : string)
  | DeleteBlob (name : string).

(** The state the handlers run in: the bucket [BUCKET_NAME] ([None] when
    it does not exist, otherwise its objects by name), the faults still to
    come (the [n]-th entry decides whether the [n]-th storage call raises,
    and with which message; no entry means no fault) and the log of the
    storage calls made so far. *)
Record world : Type := World {
  bucket : option (gmap string string);
  faults : list (option string);
  calls : list api_call;
}.

Inductive outcome (A : Type) : Type :=
  | Ok (a : A)
  | Raise (msg : string).
Arguments Ok {A} a.
Arguments Raise {A} msg.

Definition M (A : Type) : Type := world → outcome A * world.

Definition ret {A} (a : A) : M A := λ w, (Ok a, w).
Definition raise {A} (msg : string) : M A := λ w, (Raise msg, w).
Definition bind {A B} (m : M A) (k : A → M B) : M B := λ w,
  match m w with
  | (Ok a, w') => k a w'
  | (Raise msg, w') => (Raise msg, w')
  end.
(** [try: m  except Exception as e: handler(str(e))] *)
Definition try_except {A} (m : M A) (handler : string → M A) : M A := λ w,
  match m w with
  | (Ok a, w') => (Ok a, w')
  | (Raise msg, w') => handler msg w'
  end.

Global Instance M_ret : MRet M := @ret.
Global Instance M_bind : MBind M := λ A B k m, bind m k.

(** A storage call: it is logged, then it raises if the fault plan says so,
    and otherwise acts on the bucket. *)
Definition storage_call {A} (c : api_call)
    (act : option (gmap string string) → outcome A * option (gmap string string)) : M A := λ w,
  let log := calls w ++ [c] in
  match faults w with
  | Some msg :: rest => (Raise msg, World (bucket w) rest log)
  | None :: rest => let '(r, b) := act (bucket w) in (r, World b rest log)
  | [] => let '(r, b) := act (bucket w) in (r, World b [] log)
  end.

Definition not_found : string := "404 Not Found".
Definition conflict : string := "409 Conflict".

(** [bucket.exists()] *)
Definition bucket_exists : M bool :=
  storage_call BucketExists (λ b, (Ok (bool_decide (is_Some b)), b)).

(** [storage_client.create_bucket(BUCKET_NAME, location='us-central1')] *)
Definition create_bucket : M () :=
  storage_call CreateBucket (λ b,
    match b with
    | Some _ => (Raise conflict, b)
    | None => (Ok (), Some ∅)
    end).

(** [bucket.blob(name).upload_from_string(data, ...)]: creates or replaces
    the object. *)
Definition upload_from_string (name data : string) : M () :=
  storage_call (Upload name data) (λ b,
    match b with
    | Some blobs => (Ok (), Some (<[name := data]> blobs))
    | None => (Raise not_found, b)
    end).

(** [blob.exists()] *)
Definition blob_exists (name : string) : M bool :=
  storage_call (BlobExists name) (λ b,
    (Ok (match b with
         | Some blobs => bool_decide (is_Some (blobs !! name))
         | None => false
         end), b)).

(** [blob.download_as_text()]; an object holds text. *)
Definition download_as_text (name : string) : M string :=
  storage_call (Download name) (λ b,
    match b ≫= (.!! name) with
    | Some data => (Ok data, b)
    | None => (Raise not_found, b)
    end).

(** The names of the objects whose name starts with [prefix], in the
    lexicographic order the service lists them in. *)
Definition blobs_with_prefix (prefix : string) (blobs : gmap string string) : list string :=
  filter (λ name, String.prefix prefix name = true)
         (merge_sort String.le (map fst (map_to_list blobs))).

(** [bucket.list_blobs(prefix=prefix)], consumed whole. *)
Definition list_blobs (prefix : string) : M (list string) :=
  storage_call (ListBlobs prefix) (λ b,
    match b with
    | Some blobs => (Ok (blobs_with_prefix prefix blobs), b)
    | None => (Raise not_found, b)
    end).

(** [blob.delete()] *)
Definition blob_delete (name : string) : M () :=
  storage_call (DeleteBlob name) (λ b,
    match b with
    | Some blobs =>
        if bool_decide (is_Some (blobs !! name))
        then (Ok (), Some (delete name blobs))
        else (Raise not_found, b)
    | None => (Raise not_found, b)
    end).

(** ** Python operations on JSON values

    An exception of the interpreter is known by the name of its class; the
    text [str(e)] that a handler puts in its 500 response is stood for by
    that name. *)

Definition type_error : string := "TypeError".
Definition attribute_error : string := "AttributeError".
Definition key_error : string := "KeyError".
Definition json_decode_error : string := "JSONDecodeError".

Definition is_str (key : string) (v : json) : bool :=
  match v with
  | JStr s => bool_decide (s = key)
  | _ => false
  end.

(** [key in container], for a string [key]: key of a dict, element of a
    list, substring of a string; a [TypeError] on anything else. *)
Definition py_contains (key : string) (container : json) : M bool :=
  match container with
  | JObj fields => mret (bool_decide (is_Some (dict_lookup key fields)))
  | JArr items => mret (existsb (is_str key) items)
  | JStr s => mret (is_substring key s)
  | _ => raise type_error
  end.

(** [container[key]], for a string [key]. *)
Definition py_getitem (key : string) (container : json) : M json :=
  match container with
  | JObj fields =>
      match dict_lookup key fields with
      | Some v => mret v
      | None => raise key_error
      end
  | _ => raise type_error
  end.

(** [container.get(key)] *)
Definition py_get (key : string) (container : json) : M json :=
  match container with
  | JObj fields => mret (default JNull (dict_lookup key fields))
  | _ => raise attribute_error
  end.

(** [acc.extend(v)]: the items of a list, the keys of a dict, the
    characters of a string. *)
Definition py_extend (acc : list json) (v : json) : M (list json) :=
  match v with
  | JArr items => mret (acc ++ items)
  | JObj fields => mret (acc ++ map (λ kv, JStr kv.1) fields)
  | JStr s => mret (acc ++ map (λ c, JStr (String c EmptyString)) (String.list_ascii_of_string s))
  | _ => raise type_error
  end.

Section handlers.
Context `{PyRuntime}.

(** [json.loads(text)] *)
Definition py_loads (text : string) : M json :=
  match json_loads text with
  | Some v => mret v
  | None => raise json_decode_error
  end.

(** How an f-string renders [{v}]. *)
Definition py_str (v : json) : string :=
  match v with
  | JStr s => s
  | JInt z => pretty z
  | JBool true => "True"
  | JBool false => "False"
  | JNull => "None"
  | _ => py_repr v
  end.

(** ** HTTP requests and responses *)

(** A request, as far as the handlers read it: the method and the result
    of [request.get_json(silent=True)], [JNull] standing for [None]. *)
Record http_request : Type := Request {
  method : string;
  get_json : json;
}.

Inductive payload : Type :=
  | EmptyBody
  | JsonBody (j : json).

(** The triple [(body, status, headers)] a handler returns. *)
Record response : Type := Response {
  body : payload;
  status : Z;
  headers : list (string * string);
}.

Definition jsonify (fields : list (string * json)) : payload := JsonBody (JObj fields).

Definition preflight : response :=
  Response EmptyBody 204
    [("Access-Control-Allow-Origin", "*");
     ("Access-Control-Allow-Methods", "POST");
     ("Access-Control-Allow-Headers", "Content-Type");
     ("Access-Control-Max-Age", "3600")].

Definition cors : list (string * string) := [("Access-Control-Allow-Origin", "*")].

Definition failure (code : Z) (error : string) : response :=
  Response (jsonify [("success", JBool false); ("error", JStr error)]) code cors.

(** A field of a JSON response body. *)
Definition field (key : string) (r : response) : option json :=
  match body r with
  | JsonBody (JObj fields) => dict_lookup key fields
  | _ => None
  end.

(** ** Object names *)

Definition user_prefix (user_id : json) : string :=
  "users/" +:+ py_str user_id +:+ "/documents/".
Definition document_prefix (user_id document_id : json) : string :=
  "users/" +:+ py_str user_id +:+ "/documents/" +:+ py_str document_id +:+ "/".
Definition chunks_name (user_id document_id : json) : string :=
  "users/" +:+ py_str user_id +:+ "/documents/" +:+ py_str document_id +:+ "/chunks.json".
Definition metadata_name (user_id document_id : json) : string :=
  "users/" +:+ py_str user_id +:+ "/documents/" +:+ py_str document_id +:+ "/metadata.json".

(** ** save_embeddings *)

Definition required_fields : list string :=
  ["userId"; "documentId"; "fileName"; "chunks"; "metadata"].

(** The loop over [required_fields]: the first field that is not in the
    request, if any. *)
Fixpoint first_missing (fields : list string) (request_json : json) : M (option string) :=
  match fields with
  | [] => mret None
  | name :: rest =>
      present ← py_contains name request_json;
      if (present : bool) then first_missing rest request_json else mret (Some name)
  end.

(** The body of the inner [try] of [save_embeddings]: create the bucket
    unless it exists. *)
Definition ensure_bucket : M () :=
  present ← bucket_exists;
  if (present : bool) then mret () else create_bucket.

(** The inner [try] with its [except]: every exception is caught and the
    plain bucket handle is used. *)
Definition get_or_create_bucket : M () :=
  try_except ensure_bucket (λ _, mret ()).

(** The final [return] of [save_embeddings]. *)
Definition saved (document_id file_name : json) (items : list json) (storage_url : string)
    : response :=
  Response
    (jsonify [("success", JBool true);
              ("documentId", document_id);
              ("chunksSaved", JInt (Z.of_nat (length items)));
              ("storageUrl", JStr storage_url);
              ("storage", JStr "cloud");
              ("message", JStr ("Successfully saved " +:+ pretty (length items)
                                +:+ " chunks for " +:+ py_str file_name))])
    200 cors.

(** The request is valid: get the bucket, write the two objects and
    report (from [# Get or create bucket] to the final [return]). *)
Definition store_document (user_id document_id file_name : json) (items : list json)
    (metadata : json) : M response :=
  let chunks := JArr items in
  get_or_create_bucket;;
  let chunks_blob_name := chunks_name user_id document_id in
  upload_from_string chunks_blob_name (json_dumps chunks);;
  let metadata_blob_name := metadata_name user_id document_id in
  upload_from_string metadata_blob_name (json_dumps metadata);;
  let storage_url := "gs://" +:+ BUCKET_NAME +:+ "/" +:+ chunks_blob_name in
  mret (saved document_id file_name items storage_url).

Definition save_embeddings (request : http_request) : M response :=
  if bool_decide (method request = "OPTIONS") then mret preflight else
  try_except
    (let request_json := get_json request in
     if negb (py_truthy request_json) then mret (failure 400 "No JSON data provided") else
     missing ← first_missing required_fields request_json;
     match missing with
     | Some name => mret (failure 400 ("Missing required field: " +:+ name))
     | None =>
         user_id ← py_getitem "userId" request_json;
         document_id ← py_getitem "documentId" request_json;
         file_name ← py_getitem "fileName" request_json;
         chunks ← py_getitem "chunks" request_json;
         metadata ← py_getitem "metadata" request_json;
         match chunks with
         | JArr items =>
             if Nat.eqb (length items) 0 then mret (failure 400 "chunks array is empty") else
             store_document user_id document_id file_name items metadata
         | _ => mret (failure 400 "chunks must be an array")
         end
     end)
    (λ e, mret (failure 500 e)).

(** ** retrieve_embeddings *)

(** The final [return] of [retrieve_embeddings]. *)
Definition retrieved (all_chunks all_metadata : list json) : response :=
  Response
    (jsonify [("success", JBool true);
              ("chunks", JArr all_chunks);
              ("metadata", JArr all_metadata);
              ("documentsCount", JInt (Z.of_nat (length all_metadata)));
              ("message", JStr ("Retrieved " +:+ pretty (length all_chunks) +:+ " chunks from "
                                +:+ pretty (length all_metadata) +:+ " documents"))])
    200 cors.

(** The dict [documents]: document id to (file name to blob), in insertion
    order.  A blob is known by its name. *)
Definition documents_dict : Type := list (string * gmap string string).

(** [documents[doc_id][file_type] = blob] *)
Fixpoint set_file (doc_id file_type blob : string) (documents : documents_dict) : documents_dict :=
  match documents with
  | [] => []
  | (d, files) :: rest =>
      if bool_decide (d = doc_id) then (d, <[file_type := blob]> files) :: rest
      else (d, files) :: set_file doc_id file_type blob rest
  end.

(** One turn of the grouping loop. *)
Definition group_blob (documents : documents_dict) (name : string) : documents_dict :=
  let parts := str_split slash name in
  if Nat.leb 5 (length parts) then
    match parts !! 3%nat, parts !! 4%nat with
    | Some doc_id, Some file_type =>
        let documents :=
          if bool_decide (is_Some (dict_lookup doc_id documents)) then documents
          else documents ++ [(doc_id, ∅)] in
        set_file doc_id file_type name documents
    | _, _ => documents
    end
  else documents.

Definition group_blobs (blobs : list string) : documents_dict := foldl group_blob [] blobs.

(** The loop over [documents.items()]. *)
Fixpoint collect (documents : documents_dict) (all_chunks all_metadata : list json)
    : M (list json * list json) :=
  match documents with
  | [] => mret (all_chunks, all_metadata)
  | (doc_id, files) :: rest =>
      all_chunks ←
        match files !! "chunks.json" with
        | Some blob =>
            chunks_data ← download_as_text blob;
            chunks ← py_loads chunks_data;
            py_extend all_chunks chunks
        | None => mret all_chunks
        end;
      all_metadata ←
        match files !! "metadata.json" with
        | Some blob =>
            metadata_data ← download_as_text blob;
            metadata ← py_loads metadata_data;
            mret (all_metadata ++ [metadata])
        | None => mret all_metadata
        end;
      collect rest all_chunks all_metadata
  end.

Definition no_documents : response :=
  Response
    (jsonify [("success", JBool true);
              ("chunks", JArr []);
              ("metadata", JArr []);
              ("documentsCount", JInt 0);
              ("message", JStr "No documents found")])
    200 cors.

(** The branch [if document_id:]: one document. *)
Definition retrieve_document (user_id document_id : json) : M response :=
  let all_chunks := [] in
  let all_metadata := [] in
  let chunks_blob_name := chunks_name user_id document_id in
  found ← blob_exists chunks_blob_name;
  if negb (found : bool)
  then mret (failure 404 ("Document " +:+ py_str document_id +:+ " not found")) else
  chunks_data ← download_as_text chunks_blob_name;
  chunks ← py_loads chunks_data;
  all_chunks ← py_extend all_chunks chunks;
  let metadata_blob_name := metadata_name user_id document_id in
  found ← blob_exists metadata_blob_name;
  all_metadata ←
    (if (found : bool) then
       metadata_data ← download_as_text metadata_blob_name;
       metadata ← py_loads metadata_data;
       mret (all_metadata ++ [metadata])
     else mret all_metadata);
  mret (retrieved all_chunks all_metadata).

(** The branch [else:]: all the documents of the user. *)
Definition retrieve_all (user_id : json) : M response :=
  let all_chunks := [] in
  let all_metadata := [] in
  let prefix := user_prefix user_id in
  blobs ← list_blobs prefix;
  let documents := group_blobs blobs in
  '(all_chunks, all_metadata) ← collect documents all_chunks all_metadata;
  mret (retrieved all_chunks all_metadata).

Definition retrieve_embeddings (request : http_request) : M response :=
  if bool_decide (method request = "OPTIONS") then mret preflight else
  try_except
    (let request_json := get_json request in
     if negb (py_truthy request_json) then mret (failure 400 "No JSON data provided") else
     has_user ← py_contains "userId" request_json;
     if negb (has_user : bool) then mret (failure 400 "Missing required field: userId") else
     user_id ← py_getitem "userId" request_json;
     document_id ← py_get "documentId" request_json;
     present ← bucket_exists;
     if negb (present : bool) then mret no_documents else
     if py_truthy document_id then retrieve_document user_id document_id
     else retrieve_all user_id)
    (λ e, mret (failure 500 e)).

(** ** delete_embeddings *)

(** [for blob in blobs: blob.delete()] *)
Fixpoint delete_blobs (blobs : list string) : M () :=
  match blobs with
  | [] => mret ()
  | blob :: rest => blob_delete blob;; delete_blobs rest
  end.

(** One turn of the loop that fills the set [documents]. *)
Definition note_document (documents : gset string) (name : string) : gset string :=
  let parts := str_split slash name in
  if Nat.leb 5 (length parts) then
    match parts !! 3%nat with
    | Some doc_id => {[doc_id]} ∪ documents
    | None => documents
    end
  else documents.

(** The final [return] of [delete_embeddings]. *)
Definition deleted (deleted_count : nat) (message : string) : response :=
  Response
    (jsonify [("success", JBool true);
              ("documentsDeleted", JInt (Z.of_nat deleted_count));
              ("message", JStr message)])
    200 cors.

(** The branch [if document_id:]: one document. *)
Definition delete_document (user_id document_id : json) : M response :=
  let prefix := document_prefix user_id document_id in
  blobs ← list_blobs prefix;
  if bool_decide (blobs = [])
  then mret (failure 404 ("Document " +:+ py_str document_id +:+ " not found")) else
  delete_blobs blobs;;
  let deleted_count := 1%nat in
  let message := "Successfully deleted document " +:+ py_str document_id in
  mret (deleted deleted_count message).

(** The branch [else:]: all the documents of the user. *)
Definition delete_all (user_id : json) : M response :=
  let prefix := user_prefix user_id in
  blobs ← list_blobs prefix;
  let documents := foldl note_document ∅ blobs in
  delete_blobs blobs;;
  let deleted_count := size documents in
  let message := "Successfully deleted " +:+ pretty deleted_count
                 +:+ " documents for user " +:+ py_str user_id in
  mret (deleted deleted_count message).

Definition delete_embeddings (request : http_request) : M response :=
  if bool_decide (method request = "OPTIONS") then mret preflight else
  try_except
    (let request_json := get_json request in
     if negb (py_truthy request_json) then mret (failure 400 "No JSON data provided") else
     has_user ← py_contains "userId" request_json;
     if negb (has_user : bool) then mret (failure 400 "Missing required field: userId") else
     user_id ← py_getitem "userId" request_json;
     document_id ← py_get "documentId" request_json;
     present ← bucket_exists;
     if negb (present : bool) then mret (deleted 0 "No documents to delete") else
     if py_truthy document_id then delete_document user_id document_id
     else delete_all user_id)
    (λ e, mret (failure 500 e)).

End handlers.

(** ** scrape_linkedin

    The handler posts the request body to a fixed address and relays the
    answer.  The service is a parameter of the state: what it answers to a
    body, or the exception [requests.post] raises; the posts made are
    logged. *)

Definition toolhouse_url : string :=
  "https://agents.toolhouse.ai/7078fef9-081e-4f8c-b8ac-c816ef13c75f".

(** What [requests.post] returns, as far as the handler reads it:
    [response.status_code] and the result of [response.json()], [None]
    where it raises. *)
Record reply : Type := Reply {
  status_code : Z;
  reply_json : option json;
}.

(** [response.ok]: the status is not a client or server error. *)
Definition reply_ok (r : reply) : bool :=
  negb (Z.leb 400 (status_code r) && Z.ltb (status_code r) 600).

Record upstream : Type := Upstream {
  answer : json → outcome reply;
  posted : list (string * json);
}.

(** The error responses of [scrape_linkedin] have the one field [error]. *)
Definition error_response (code : Z) (error : string) : response :=
  Response (jsonify [("error", JStr error)]) code cors.

Definition scrape_linkedin (request : http_request) (u : upstream) : response * upstream :=
  if bool_decide (method request = "OPTIONS") then (preflight, u) else
  let request_json := get_json request in
  if negb (py_truthy request_json) then (error_response 400 "No request body", u) else
  let u' := Upstream (answer u) (posted u ++ [(toolhouse_url, request_json)]) in
  match answer u request_json with
  | Ok response =>
      if negb (reply_ok response)
      then (error_response 500 ("Toolhouse error: " +:+ pretty (status_code response)), u')
      else
        match reply_json response with
        | Some j => (Response (JsonBody j) 200 cors, u')
        | None => (error_response 500 json_decode_error, u')
        end
  | Raise e => (error_response 500 e, u')
  end.

(** ** A reference runtime

    An instance of [PyRuntime] to run the handlers on concrete requests: a
    writer that lays a value out as [json.dumps(value, indent=2)] does, a
    reader for JSON text, and [repr].  It is exact on integers and on text
    made of printable ASCII characters, which is all the examples below
    use. *)
Module Reference.

Definition quote : ascii := "034"%char.
Definition backslash : ascii := "092"%char.
Definition newline : ascii := "010"%char.

Fixpoint escape (s : string) : string :=
  match s with
  | EmptyString => EmptyString
  | String c rest =>
      if bool_decide (c = quote) then String backslash (String quote (escape rest))
      else if bool_decide (c = backslash) then String backslash (String backslash (escape rest))
      else if bool_decide (c = newline) then String backslash (String "n"%char (escape rest))
      else String c (escape rest)
  end.

Definition write_string (s : string) : string :=
  String quote (escape s +:+ String quote EmptyString).

Fixpoint indent (level : nat) : string :=
  match level with
  | O => EmptyString
  | S level => "  " +:+ indent level
  end.

Fixpoint join (sep : string) (parts : list string) : string :=
  match parts with
  | [] => EmptyString
  | [part] => part
  | part :: rest => part +:+ sep +:+ join sep rest
  end.

Definition block (opening closing : string) (level : nat) (lines : list string) : string :=
  match lines with
  | [] => opening +:+ closing
  | _ =>
      opening +:+ String newline (indent (S level))
      +:+ join ("," +:+ String newline (indent (S level))) lines
      +:+ String newline (indent level) +:+ closing
  end.

Fixpoint write (level : nat) (v : json) : string :=
  match v with
  | JNull => "null"
  | JBool true => "true"
  | JBool false => "false"
  | JInt z => pretty z
  | JStr s => write_string s
  | JArr items => block "[" "]" level (map (write (S level)) items)
  | JObj fields =>
      block "{" "}" level
        (map (λ kv, let '(k, fv) := kv in write_string k +:+ ": " +:+ write (S level) fv) fields)
  end.

Definition is_space (c : ascii) : bool :=
  bool_decide (c = " "%char) || bool_decide (c = newline)
  || bool_decide (c = "009"%char) || bool_decide (c = "013"%char).

Fixpoint skip_space (s : string) : string :=
  match s with
  | String c rest => if is_space c then skip_space rest else s
  | EmptyString => EmptyString
  end.

Definition digit (c : ascii) : option Z :=
  let n := Z.of_nat (nat_of_ascii c) in
  if bool_decide (48 ≤ n ≤ 57)%Z then Some (n - 48)%Z else None.

Fixpoint read_digits (acc : Z) (s : string) : Z * string :=
  match s with
  | String c rest =>
      match digit c with
      | Some d => read_digits (10 * acc + d)%Z rest
      | None => (acc, s)
      end
  | EmptyString => (acc, s)
  end.

(** The text of a string literal, after its opening quote. *)
Fixpoint read_text (s : string) : option (string * string) :=
  match s with
  | EmptyString => None
  | String c rest =>
      if bool_decide (c = quote) then Some (EmptyString, rest)
      else if bool_decide (c = backslash) then
        match rest with
        | String e rest' =>
            let c' := if bool_decide (e = "n"%char) then newline else e in
            '(text, rest'') ← read_text rest';
            Some (String c' text, rest'')
        | EmptyString => None
        end
      else
        '(text, rest') ← read_text rest;
        Some (String c text, rest')
  end.

Fixpoint read (fuel : nat) (s : string) : option (json * string) :=
  match fuel with
  | O => None
  | S fuel =>
      match skip_space s with
      | String "n" (String "u" (String "l" (String "l" rest))) => Some (JNull, rest)
      | String "t" (String "r" (String "u" (String "e" rest))) => Some (JBool true, rest)
      | String "f" (String "a" (String "l" (String "s" (String "e" rest)))) =>
          Some (JBool false, rest)
      | String "[" rest =>
          match skip_space rest with
          | String "]" rest' => Some (JArr [], rest')
          | _ => '(items, rest') ← read_items fuel rest; Some (JArr items, rest')
          end
      | String "{" rest =>
          match skip_space rest with
          | String "}" rest' => Some (JObj [], rest')
          | _ => '(fields, rest') ← read_fields fuel rest; Some (JObj fields, rest')
          end
      | String "-" rest =>
          match rest with
          | String c _ =>
              if bool_decide (is_Some (digit c))
              then let '(n, rest') := read_digits 0 rest in Some (JInt (- n), rest')
              else None
          | EmptyString => None
          end
      | String c rest =>
          if bool_decide (c = quote) then
            '(text, rest') ← read_text rest; Some (JStr text, rest')
          else if bool_decide (is_Some (digit c))
          then let '(n, rest') := read_digits 0 (String c rest) in Some (JInt n, rest')
          else None
      | EmptyString => None
      end
  end
with read_items (fuel : nat) (s : string) : option (list json * string) :=
  match fuel with
  | O => None
  | S fuel =>
      '(v, rest) ← read fuel s;
      match skip_space rest with
      | String "," rest' => '(items, rest'') ← read_items fuel rest'; Some (v :: items, rest'')
      | String "]" rest' => Some ([v], rest')
      | _ => None
      end
  end
with read_fields (fuel : nat) (s : string) : option (list (string * json) * string) :=
  match fuel with
  | O => None
  | S fuel =>
      match skip_space s with
      | String c rest =>
          if bool_decide (c = quote) then
            '(k, rest) ← read_text rest;
            match skip_space rest with
            | String ":" rest =>
                '(v, rest) ← read fuel rest;
                match skip_space rest with
                | String "," rest' =>
                    '(fields, rest'') ← read_fields fuel rest'; Some ((k, v) :: fields, rest'')
                | String "}" rest' => Some ([(k, v)], rest')
                | _ => None
                end
            | _ => None
            end
          else None
      | EmptyString => None
      end
  end.

Definition loads (text : string) : option json :=
  '(v, rest) ← read (2 * String.length text + 2) text;
  if bool_decide (skip_space rest = EmptyString) then Some v else None.

Fixpoint repr (v : json) : string :=
  match v with
  | JNull => "None"
  | JBool true => "True"
  | JBool false => "False"
  | JInt z => pretty z
  | JStr s => "'" +:+ s +:+ "'"
  | JArr items => "[" +:+ join ", " (map repr items) +:+ "]"
  | JObj fields =>
      "{" +:+ join ", " (map (λ kv, let '(k, fv) := kv in "'" +:+ k +:+ "': " +:+ repr fv) fields)
      +:+ "}"
  end.

Definition runtime : PyRuntime :=
  {| json_dumps := write 0; json_loads := loads; py_repr := repr |}.

End Reference.

(** * Vocabulary of the statements *)

(** ** Object names as paths

    An object written by [save_embeddings] is named
    [users/{userId}/documents/{documentId}/{file}]: split at the slashes,
    the document id is segment 3 and the file segment 4. *)

Definition fourth_segment (name : string) : option string :=
  str_split slash name !! 3%nat.

Definition has_file_segment (name : string) : bool :=
  Nat.leb 5 (length (str_split slash name)).

(** The document an object belongs to: its fourth segment, when it has a
    file segment after it. *)
Definition document_of (name : string) : option string :=
  if has_file_segment name then fourth_segment name else None.

Definition file_of (name : string) : option string :=
  if has_file_segment name then str_split slash name !! 4%nat else None.

Fixpoint no_slash (s : string) : bool :=
  match s with
  | EmptyString => true
  | String c rest => negb (bool_decide (c = slash)) && no_slash rest
  end.

(** The distinct elements of a list, in the order they first occur. *)
Fixpoint first_seen (l : list string) : list string :=
  match l with
  | [] => []
  | x :: l => x :: filter (λ y, y ≠ x) (first_seen l)
  end.

(** The documents of a listing, in the order the listing meets them. *)
Definition listed_documents (listing : list string) : list string :=
  first_seen (omap document_of listing).

(** The object that stands for file [file] of document [doc] in a
    listing: the last one listed with these two segments. *)
Definition listed_file (listing : list string) (doc file : string) : option string :=
  last (filter (λ name, document_of name = Some doc ∧ file_of name = Some file) listing).

Section vocabulary.
Context `{PyRuntime}.

(** [request] is a Save request carrying these five fields. *)
Definition save_request (request : http_request)
    (user_id document_id file_name chunks metadata : json) : Prop :=
  method request ≠ "OPTIONS" ∧
  ∃ fields, get_json request = JObj fields ∧
    dict_lookup "userId" fields = Some user_id ∧
    dict_lookup "documentId" fields = Some document_id ∧
    dict_lookup "fileName" fields = Some file_name ∧
    dict_lookup "chunks" fields = Some chunks ∧
    dict_lookup "metadata" fields = Some metadata.

(** [request] is a Retrieve or Delete request for [user_id] and
    [document_id], which is [JNull] when the request names no document. *)
Definition lookup_request (request : http_request) (user_id document_id : json) : Prop :=
  method request ≠ "OPTIONS" ∧
  ∃ fields, get_json request = JObj fields ∧
    dict_lookup "userId" fields = Some user_id ∧
    default JNull (dict_lookup "documentId" fields) = document_id.

(** The JSON value an object of the bucket holds. *)
Definition stored_json (blobs : gmap string string) (name : string) : option json :=
  blobs !! name ≫= json_loads.

(** What a document contributes to an all-documents Retrieve. *)
Definition document_chunks (blobs : gmap string string) (listing : list string)
    (doc : string) : list json :=
  match listed_file listing doc "chunks.json" ≫= stored_json blobs with
  | Some (JArr items) => items
  | _ => []
  end.

Definition document_metadata (blobs : gmap string string) (listing : list string)
    (doc : string) : list json :=
  option_list (listed_file listing doc "metadata.json" ≫= stored_json blobs).

End vocabulary.

(** ** Sample requests and stores, run with the reference runtime *)
Module Samples.

#[local] Existing Instance Reference.runtime.

Definition empty_world : world := World None [] [].

Definition chunk (index : Z) (text : string) : json :=
  JObj [("fileName", JStr "resume.pdf");
        ("chunkIndex", JInt index);
        ("text", JStr text);
        ("embedding", JArr [JInt 3; JInt (-1); JInt 4]);
        ("timestamp", JInt 1234567890)].

Definition chunks : list json := [chunk 0 "first part"; chunk 1 "second part"].

Definition metadata : json :=
  JObj [("fileName", JStr "resume.pdf");
        ("documentId", JStr "doc_456");
        ("chunksProcessed", JInt 2);
        ("uploadedAt", JInt 1234567890)].

Definition save (user_id document_id : string) (items : list json) : http_request :=
  Request "POST"
    (JObj [("userId", JStr user_id);
           ("documentId", JStr document_id);
           ("fileName", JStr "resume.pdf");
           ("chunks", JArr items);
           ("metadata", metadata)]).

Definition lookup_one (user_id document_id : string) : http_request :=
  Request "POST" (JObj [("userId", JStr user_id); ("documentId", JStr document_id)]).

Definition lookup_all (user_id : string) : http_request :=
  Request "POST" (JObj [("userId", JStr user_id)]).

(** The world after a sequence of Save requests. *)
Definition after (requests : list http_request) (w : world) : world :=
  foldl (λ w request, (save_embeddings request w).2) w requests.

(** A Save request whose strings and metadata are all empty. *)
Definition save_nothing : http_request :=
  Request "POST"
    (JObj [("userId", JStr "");
           ("documentId", JStr "");
           ("fileName", JStr "");
           ("chunks", JArr [JInt 1]);
           ("metadata", JObj [])]).

(** A bucket in which document [a] has only its chunks, document [b] only
    its metadata and document [c] both. *)
Definition partial_documents : gmap string string :=
  list_to_map
    [("users/u/documents/a/chunks.json", "[1, 2]");
     ("users/u/documents/b/metadata.json", "{}");
     ("users/u/documents/c/chunks.json", "[3]");
     ("users/u/documents/c/metadata.json", "null")].

(** A bucket with an object that has no file segment. *)
Definition stray_object : gmap string string :=
  list_to_map
    [("users/u/documents/readme", "notes");
     ("users/u/documents/d/chunks.json", "[]")].

(** A world in which the bucket exists and the next storage call fails. *)
Definition unreachable_once : world :=
  World (Some ∅) [Some "503 Service Unavailable"] [].

(** A bucket whose [chunks.json] does not hold JSON. *)
Definition corrupt_chunks : gmap string string :=
  list_to_map [("users/u/documents/a/chunks.json", "[1, 2")].

(** A bucket with a document of user [u] and a document of user [v]. *)
Definition two_users : gmap string string :=
  list_to_map
    [("users/u/documents/a/chunks.json", "[1]");
     ("users/u/documents/a/metadata.json", "{}");
     ("users/v/documents/a/chunks.json", "[2]")].

(** A world without bucket in which the next storage call fails. *)
Definition never_created : world :=
  World None [Some "503 Service Unavailable"] [].

(** A world in which the bucket exists and the second upload fails. *)
Definition second_upload_fails : world :=
  World (Some ∅) [None; None; Some "503 Service Unavailable"] [].

(** A world in which the second deletion fails. *)
Definition second_delete_fails : world :=
  World (Some partial_documents) [None; None; None; Some "503 Service Unavailable"] [].

(** An upstream that answers every post with [code] and the JSON [j]. *)
Definition answers (code : Z) (j : json) : upstream :=
  Upstream (λ _, Ok (Reply code (Some j))) [].

End Samples.

(** ** Vocabulary of the properties that hold in every world *)

(** [m], run from any world, leaves a world related to it by [R] and, when
    it returns a value, one that satisfies [Q]. *)
Definition establishes {A} (R : relation world) (Q : A → Prop) (m : M A) : Prop :=
  ∀ w, R w (m w).2 ∧ ∀ a, (m w).1 = Ok a → Q a.

(** The storage calls that read. *)
Definition read_call (c : api_call) : Prop :=
  match c with
  | BucketExists | BlobExists _ | Download _ | ListBlobs _ => True
  | _ => False
  end.

(** From [w] to [w'] the bucket is the same and the storage was only read. *)
Definition only_reads (w w' : world) : Prop :=
  bucket w' = bucket w ∧ ∃ new, calls w' = calls w ++ new ∧ Forall read_call new.

(** The storage calls of a Delete on the objects that satisfy [P]. *)
Definition delete_call (P : string → Prop) (c : api_call) : Prop :=
  match c with
  | BucketExists | ListBlobs _ => True
  | DeleteBlob name => P name
  | _ => False
  end.

(** From [w] to [w'] the bucket lost some objects that satisfy [P] and is
    otherwise the same: nothing was written and no bucket was created. *)
Definition only_removes (P : string → Prop) (w w' : world) : Prop :=
  match bucket w, bucket w' with
  | Some blobs, Some blobs' =>
      ∀ name, blobs' !! name = blobs !! name ∨ (blobs' !! name = None ∧ P name)
  | None, None => True
  | _, _ => False
  end ∧
  ∃ new, calls w' = calls w ++ new ∧ Forall (delete_call P) new.

(** The storage calls of a Save on the objects [names]. *)
Definition save_call (names : list string) (c : api_call) : Prop :=
  match c with
  | BucketExists | CreateBucket => True
  | Upload name _ => name ∈ names
  | _ => False
  end.

(** From [w] to [w'] a bucket that existed still exists, every object
    other than [names] is as it was, and [CreateBucket] was not called on a
    bucket that existed. *)
Definition only_writes (names : list string) (w w' : world) : Prop :=
  (is_Some (bucket w) → is_Some (bucket w')) ∧
  (∀ name, name ∉ names → bucket w' ≫= (.!! name) = bucket w ≫= (.!! name)) ∧
  ∃ new, calls w' = calls w ++ new ∧ Forall (save_call names) new ∧
         (is_Some (bucket w) → CreateBucket ∉ new).

(** A response of a storage handler: the CORS header, one of the status
    codes [codes], and a [success] field that is true exactly for 200. *)
Definition well_formed (codes : list Z) (r : response) : Prop :=
  headers r = cors ∧ status r ∈ codes ∧
  field "success" r = Some (JBool (Z.eqb (status r) 200)).

(** Any two worlds: the relation of a property that is about the value
    returned only. *)
Definition anything : relation world := λ _ _, True.

Section prefixes.
Context `{PyRuntime}.

(** The prefix a Delete request lists: the document's when the request
    names one, the user's otherwise. *)
Definition delete_prefix (user_id document_id : json) : string :=
  if py_truthy document_id then document_prefix user_id document_id
  else user_prefix user_id.

End prefixes.

(** * Proofs *)

Set Warnings "-clear-no-such-hyp".

Tactic Notation "unmonad" :=
  repeat (progress (unfold mbind, M_bind, mret, M_ret, bind, ret, raise, try_except; cbn)).
Tactic Notation "unmonad" "in" hyp(H) :=
  repeat (progress (unfold mbind, M_bind, mret, M_ret, bind, ret, raise, try_except in H;
                    cbn in H)).

#[local] Arguments first_missing : simpl never.
#[local] Arguments dict_lookup : simpl never.
#[local] Arguments py_truthy : simpl never.
#[local] Arguments py_loads : simpl never.
#[local] Arguments bucket_exists : simpl never.
#[local] Arguments create_bucket : simpl never.
#[local] Arguments upload_from_string : simpl never.
#[local] Arguments blob_exists : simpl never.
#[local] Arguments download_as_text : simpl never.
#[local] Arguments list_blobs : simpl never.
#[local] Arguments blob_delete : simpl never.
#[local] Arguments store_document : simpl never.
#[local] Arguments retrieve_document : simpl never.
#[local] Arguments retrieve_all : simpl never.
#[local] Arguments delete_document : simpl never.
#[local] Arguments delete_all : simpl never.
#[local] Arguments delete_blobs : simpl never.
#[local] Arguments collect : simpl never.
#[local] Arguments group_blobs : simpl never.
#[local] Arguments has_file_segment : simpl never.

(** ** The monad *)

Lemma bind_Ok {A B} (m : M A) (k : A → M B) w a w' :
  m w = (Ok a, w') → (m ≫= k) w = k a w'.
Proof. intros E. unfold mbind, M_bind, bind. by rewrite E. Qed.

(** ** Object names and listings *)

Lemma string_app_assoc (s1 s2 s3 : string) : (s1 +:+ s2) +:+ s3 = s1 +:+ (s2 +:+ s3).
Proof.
  induction s1 as [|c s1 IH]; [done|].
  change (String c ((s1 +:+ s2) +:+ s3) = String c (s1 +:+ (s2 +:+ s3))). by rewrite IH.
Qed.

Lemma str_split_not_nil sep s : str_split sep s ≠ [].
Proof. destruct s as [|c s]; [done|]. cbn. case_bool_decide; [done|]. by destruct (str_split sep s). Qed.

Lemma str_split_app_slash a b :
  no_slash a = true → str_split slash (a +:+ String slash b) = a :: str_split slash b.
Proof.
  induction a as [|c a IH]; intros Ha.
  - done.
  - cbn in Ha. apply andb_true_iff in Ha as [Hc Ha].
    apply negb_true_iff, bool_decide_eq_false in Hc.
    change (String c a +:+ String slash b) with (String c (a +:+ String slash b)).
    cbn. rewrite bool_decide_eq_false_2 by done. by rewrite IH.
Qed.

Lemma segments_of_file name :
  has_file_segment name = true →
  ∃ doc file, str_split slash name !! 3%nat = Some doc ∧ str_split slash name !! 4%nat = Some file
              ∧ document_of name = Some doc ∧ file_of name = Some file.
Proof.
  unfold document_of, file_of, fourth_segment, has_file_segment. intros Hseg. rewrite Hseg.
  apply Nat.leb_le in Hseg.
  destruct (str_split slash name) as [|? [|? [|? [|doc [|file ?]]]]]; cbn in Hseg; try lia.
  by exists doc, file.
Qed.

Lemma has_file_segment_false name :
  has_file_segment name = false → document_of name = None.
Proof. unfold document_of. by intros ->. Qed.

Lemma omap_document_of (listing : list string) :
  omap document_of listing
  = omap fourth_segment (filter (λ name, has_file_segment name = true) listing).
Proof.
  induction listing as [|name listing IH]; [done|].
  rewrite filter_cons.
  change (omap document_of (name :: listing))
    with (match document_of name with
          | Some doc => doc :: omap document_of listing
          | None => omap document_of listing
          end).
  rewrite IH. unfold document_of.
  destruct (has_file_segment name) eqn:Hseg;
    [rewrite decide_True by done|rewrite decide_False by done]; done.
Qed.

Lemma length_remove_dups_filter {A B} `{EqDecision B} (f : A → option B) (P : A → Prop)
    `{∀ x, Decision (P x)} (l : list A) :
  length (remove_dups (omap f (filter P l))) ≤ length (remove_dups (omap f l)).
Proof.
  apply submseteq_length, NoDup_submseteq; [apply NoDup_remove_dups|].
  intros y. rewrite !elem_of_remove_dups, !list_elem_of_omap.
  intros (x & Hx%list_elem_of_filter & Hy). exists x. tauto.
Qed.

Lemma elem_of_first_seen l x : x ∈ first_seen l ↔ x ∈ l.
Proof.
  induction l as [|y l IH]; [done|]. cbn.
  rewrite !elem_of_cons, list_elem_of_filter, IH.
  destruct (decide (x = y)); naive_solver.
Qed.

Lemma NoDup_first_seen l : NoDup (first_seen l).
Proof.
  induction l as [|y l IH]; cbn; [constructor|].
  apply NoDup_cons. split; [|by apply NoDup_filter].
  rewrite list_elem_of_filter. naive_solver.
Qed.

Lemma first_seen_snoc l x :
  first_seen (l ++ [x]) = if decide (x ∈ l) then first_seen l else first_seen l ++ [x].
Proof.
  induction l as [|y l IH]; [done|]. cbn. rewrite IH.
  destruct (decide (x = y)) as [->|Hne].
  - rewrite (decide_True (P := y ∈ y :: l)) by (by left).
    case_decide; [done|]. rewrite filter_app, filter_cons, decide_False by naive_solver.
    by rewrite filter_nil, app_nil_r.
  - rewrite (decide_ext (x ∈ y :: l) (x ∈ l)) by (rewrite elem_of_cons; naive_solver).
    case_decide; [done|]. rewrite filter_app, filter_cons, decide_True by done.
    by rewrite filter_nil.
Qed.

Lemma listed_file_snoc listing name doc file :
  listed_file (listing ++ [name]) doc file
  = if decide (document_of name = Some doc ∧ file_of name = Some file) then Some name
    else listed_file listing doc file.
Proof.
  unfold listed_file. rewrite filter_app, filter_cons, filter_nil.
  case_decide; [by rewrite last_snoc|by rewrite app_nil_r].
Qed.

Lemma listed_file_Some listing doc file name :
  listed_file listing doc file = Some name → name ∈ listing ∧ file_of name = Some file.
Proof.
  unfold listed_file. intros Hlast%last_Some_elem_of.
  apply list_elem_of_filter in Hlast. tauto.
Qed.

(** ** The dict of documents *)

Lemma dict_lookup_nil_inv {A} key (d : list (string * A)) v : dict_lookup key d = Some v → d ≠ [].
Proof. by destruct d. Qed.

(** The dict [documents] as an association list. *)
Lemma dict_lookup_is_Some {A} key (d : list (string * A)) :
  is_Some (dict_lookup key d) ↔ key ∈ d.*1.
Proof.
  induction d as [|[k v] d IH]; cbn.
  - rewrite elem_of_nil. split; [by intros [? ?]|done].
  - unfold dict_lookup; fold (@dict_lookup A). rewrite elem_of_cons.
    case_bool_decide; [subst; split; eauto|]. rewrite IH. naive_solver.
Qed.

Lemma dict_lookup_snoc {A} key k v (d : list (string * A)) :
  dict_lookup key (d ++ [(k, v)])
  = match dict_lookup key d with
    | Some x => Some x
    | None => if bool_decide (k = key) then Some v else None
    end.
Proof.
  induction d as [|[k' v'] d IH]; [done|].
  cbn. unfold dict_lookup; fold (@dict_lookup A).
  destruct (bool_decide (k' = key)); [done|apply IH].
Qed.

Lemma dict_lookup_elem_of {A} key v (d : list (string * A)) :
  NoDup d.*1 → (key, v) ∈ d → dict_lookup key d = Some v.
Proof.
  induction d as [|[k' v'] d IH]; [by rewrite elem_of_nil|].
  rewrite fmap_cons, NoDup_cons, elem_of_cons. cbn. intros [Hk Hnd] Hin.
  unfold dict_lookup; fold (@dict_lookup A). case_bool_decide as Hkey.
  - destruct Hin as [[= -> ->]|Hin]; [done|]. subst. destruct Hk.
    apply list_elem_of_fmap. by exists (key, v).
  - destruct Hin as [[= -> ->]|Hin]; [done|]. auto.
Qed.

Lemma set_file_keys doc file blob documents : (set_file doc file blob documents).*1 = documents.*1.
Proof.
  induction documents as [|[d files] documents IH]; [done|].
  cbn. case_bool_decide; cbn; by rewrite ?IH.
Qed.

Lemma dict_lookup_set_file doc file blob documents key :
  dict_lookup key (set_file doc file blob documents)
  = if bool_decide (key = doc) then <[file := blob]> <$> dict_lookup key documents
    else dict_lookup key documents.
Proof.
  induction documents as [|[d files] documents IH]; [by case_bool_decide|].
  cbn [set_file].
  destruct (bool_decide_reflect (d = doc)) as [Hd|Hd];
    unfold dict_lookup; fold (@dict_lookup (gmap string string));
    destruct (bool_decide_reflect (d = key)) as [Hk|Hk];
    destruct (bool_decide_reflect (key = doc)) as [Hkd|Hkd];
    congruence || done.
Qed.

Lemma group_blob_file documents name doc file :
  document_of name = Some doc → file_of name = Some file →
  group_blob documents name
  = set_file doc file name
      (if bool_decide (is_Some (dict_lookup doc documents)) then documents
       else documents ++ [(doc, ∅)]).
Proof.
  unfold document_of, file_of, fourth_segment, group_blob.
  fold (has_file_segment name). destruct (has_file_segment name); [|done].
  by intros -> ->.
Qed.

Lemma group_blob_other documents name :
  has_file_segment name = false → group_blob documents name = documents.
Proof. unfold group_blob. fold (has_file_segment name). by intros ->. Qed.

(** What the grouping loop builds. *)
Lemma group_blobs_spec listing :
  (group_blobs listing).*1 = listed_documents listing ∧
  ∀ doc file,
    dict_lookup doc (group_blobs listing) ≫= (.!! file) = listed_file listing doc file.
Proof.
  unfold group_blobs, listed_documents.
  induction listing as [|name listing [IHkeys IHfiles]] using rev_ind; [done|].
  rewrite foldl_app, omap_app. cbn [foldl].
  destruct (has_file_segment name) eqn:Hseg; last first.
  { rewrite group_blob_other by done. cbn. rewrite has_file_segment_false by done.
    rewrite app_nil_r. split; [done|]. intros doc file.
    rewrite listed_file_snoc, has_file_segment_false by done.
    rewrite decide_False by naive_solver. apply IHfiles. }
  destruct (segments_of_file name Hseg) as (doc & file & _ & _ & Hdoc & Hfile).
  rewrite (group_blob_file _ _ doc file) by done.
  cbn. rewrite Hdoc. cbn. rewrite first_seen_snoc.
  set (documents := foldl group_blob [] listing) in *.
  assert (is_Some (dict_lookup doc documents) ↔ doc ∈ omap document_of listing) as Hknown.
  { by rewrite dict_lookup_is_Some, IHkeys, elem_of_first_seen. }
  split.
  - rewrite set_file_keys. destruct (decide (doc ∈ _)) as [Hin|Hin].
    + by rewrite bool_decide_eq_true_2 by (by apply Hknown).
    + rewrite bool_decide_eq_false_2 by (by rewrite Hknown).
      by rewrite fmap_app, IHkeys.
  - intros doc' file'. rewrite listed_file_snoc, Hdoc, Hfile, dict_lookup_set_file.
    rewrite <-IHfiles.
    destruct (bool_decide_reflect (doc' = doc)) as [->|Hne]; last first.
    { rewrite decide_False by naive_solver.
      case_bool_decide; [done|]. rewrite dict_lookup_snoc.
      rewrite (bool_decide_eq_false_2 (doc = doc')) by done.
      by destruct (dict_lookup doc' _). }
    destruct (dict_lookup doc documents) as [files|] eqn:Hfiles.
    + rewrite bool_decide_eq_true_2 by eauto. rewrite Hfiles. cbn.
      destruct (decide (file = file')) as [->|Hf].
      * by rewrite lookup_insert_eq, decide_True.
      * rewrite lookup_insert_ne by done. by rewrite decide_False by naive_solver.
    + rewrite bool_decide_eq_false_2 by (by intros [? ?]).
      rewrite dict_lookup_snoc, Hfiles, bool_decide_eq_true_2 by done. cbn.
      destruct (decide (file = file')) as [->|Hf].
      * by rewrite lookup_insert_eq, decide_True.
      * rewrite lookup_insert_ne by done. by rewrite decide_False by naive_solver.
Qed.

(** ** Storage calls

    In a world with no fault to come a storage call does what the service
    does; the lemmas named [_quiet] say what. *)

(** Storage calls in a world with no fault to come. *)
Lemma bucket_exists_quiet b log :
  bucket_exists (World b [] log)
  = (Ok (bool_decide (is_Some b)), World b [] (log ++ [BucketExists])).
Proof. done. Qed.

Lemma create_bucket_quiet log :
  create_bucket (World None [] log) = (Ok (), World (Some ∅) [] (log ++ [CreateBucket])).
Proof. done. Qed.

Lemma upload_quiet name data blobs log :
  upload_from_string name data (World (Some blobs) [] log)
  = (Ok (), World (Some (<[name := data]> blobs)) [] (log ++ [Upload name data])).
Proof. done. Qed.

Lemma blob_exists_quiet name blobs log :
  blob_exists name (World (Some blobs) [] log)
  = (Ok (bool_decide (is_Some (blobs !! name))),
     World (Some blobs) [] (log ++ [BlobExists name])).
Proof. done. Qed.

Lemma download_quiet name data blobs log :
  blobs !! name = Some data →
  download_as_text name (World (Some blobs) [] log)
  = (Ok data, World (Some blobs) [] (log ++ [Download name])).
Proof. intros E. unfold download_as_text, storage_call. cbn. by rewrite E. Qed.

Lemma list_blobs_quiet prefix blobs log :
  list_blobs prefix (World (Some blobs) [] log)
  = (Ok (blobs_with_prefix prefix blobs), World (Some blobs) [] (log ++ [ListBlobs prefix])).
Proof. done. Qed.

Lemma blob_delete_quiet name data blobs log :
  blobs !! name = Some data →
  blob_delete name (World (Some blobs) [] log)
  = (Ok (), World (Some (delete name blobs)) [] (log ++ [DeleteBlob name])).
Proof.
  intros E. unfold blob_delete, storage_call. cbn.
  by rewrite bool_decide_eq_true_2 by eauto.
Qed.

Lemma upload_inv name data w o w' :
  upload_from_string name data w = (o, w') →
  calls w' = calls w ++ [Upload name data] ∧
  faults w' = tail (faults w) ∧
  match o with
  | Ok _ => ∃ blobs, bucket w = Some blobs ∧ bucket w' = Some (<[name := data]> blobs)
  | Raise _ => bucket w' = bucket w
  end.
Proof.
  destruct w as [b fs log]. unfold upload_from_string, storage_call. cbn.
  destruct fs as [|[e|] fs]; [destruct b| |destruct b]; intros [= <- <-]; cbn; eauto.
Qed.

Lemma elem_of_blobs_with_prefix prefix blobs name :
  name ∈ blobs_with_prefix prefix blobs
  ↔ is_Some (blobs !! name) ∧ String.prefix prefix name = true.
Proof.
  unfold blobs_with_prefix. rewrite list_elem_of_filter, merge_sort_Permutation.
  rewrite list_elem_of_fmap. split.
  - intros [Hp ([k v] & -> & Hin%elem_of_map_to_list)]. eauto.
  - intros [[v Hv] Hp]. split; [done|]. exists (name, v). by rewrite elem_of_map_to_list.
Qed.

Lemma NoDup_blobs_with_prefix prefix blobs : NoDup (blobs_with_prefix prefix blobs).
Proof.
  unfold blobs_with_prefix. apply NoDup_filter.
  rewrite merge_sort_Permutation. apply NoDup_fst_map_to_list.
Qed.

Lemma delete_blobs_quiet names : ∀ blobs log,
  NoDup names → (∀ name, name ∈ names → is_Some (blobs !! name)) →
  ∃ blobs',
    delete_blobs names (World (Some blobs) [] log)
    = (Ok (), World (Some blobs') [] (log ++ map DeleteBlob names)) ∧
    ∀ name, blobs' !! name = if decide (name ∈ names) then None else blobs !! name.
Proof.
  induction names as [|n names IH]; intros blobs log Hnd Hin.
  - exists blobs. rewrite app_nil_r. split; [done|]. intros name.
    by rewrite decide_False by set_solver.
  - apply NoDup_cons in Hnd as [Hn Hnd].
    destruct (Hin n) as [data Hdata]; [by left|].
    destruct (IH (delete n blobs) (log ++ [DeleteBlob n]) Hnd) as (blobs' & Hrun & Hlook).
    { intros name Hname. rewrite lookup_delete_ne by (by intros ->). apply Hin. by right. }
    exists blobs'. split.
    + change (delete_blobs (n :: names)) with (blob_delete n;; delete_blobs names).
      unmonad. rewrite (blob_delete_quiet _ _ _ _ Hdata), Hrun.
      by rewrite <-(assoc (++)).
    + intros name. rewrite Hlook. destruct (decide (name = n)) as [->|Hne].
      * rewrite lookup_delete_eq, (decide_True (P := n ∈ n :: names)) by (by left).
        by case_decide.
      * rewrite lookup_delete_ne by done.
        apply decide_ext. rewrite elem_of_cons. naive_solver.
Qed.

Lemma delete_listing_quiet prefix blobs log :
  ∃ blobs',
    delete_blobs (blobs_with_prefix prefix blobs) (World (Some blobs) [] log)
    = (Ok (), World (Some blobs') [] (log ++ map DeleteBlob (blobs_with_prefix prefix blobs))) ∧
    ∀ name, blobs' !! name = if String.prefix prefix name then None else blobs !! name.
Proof.
  destruct (delete_blobs_quiet (blobs_with_prefix prefix blobs) blobs log)
    as (blobs' & Hrun & Hlook).
  { apply NoDup_blobs_with_prefix. }
  { intros name. rewrite elem_of_blobs_with_prefix. tauto. }
  exists blobs'. split; [done|]. intros name. rewrite Hlook.
  case_decide as Hin; rewrite elem_of_blobs_with_prefix in Hin.
  - by destruct Hin as [_ ->].
  - destruct (String.prefix prefix name) eqn:Hp; [|done].
    destruct (blobs !! name) eqn:Hb; [|done]. destruct Hin. eauto.
Qed.

Lemma foldl_note_document listing documents :
  foldl note_document documents listing
  = list_to_set (omap document_of listing) ∪ documents.
Proof.
  revert documents. induction listing as [|name listing IH]; intros documents; cbn.
  - set_solver.
  - rewrite IH. unfold note_document, document_of, has_file_segment, fourth_segment.
    destruct (Nat.leb _ _); [|done].
    destruct (_ !! _); cbn; set_solver.
Qed.

Lemma size_documents listing :
  size (foldl note_document ∅ listing) = length (remove_dups (omap document_of listing)).
Proof.
  rewrite foldl_note_document, (right_id_L ∅ (∪)).
  rewrite <-(size_list_to_set (C := gset string) (remove_dups _)) by apply NoDup_remove_dups.
  f_equal. apply set_eq. intros d. by rewrite !elem_of_list_to_set, elem_of_remove_dups.
Qed.

(** ** Save *)

Section save.
Context `{PyRuntime}.

Lemma first_missing_obj names fields w :
  first_missing names (JObj fields) w
  = (Ok (find (λ name, bool_decide (dict_lookup name fields = None)) names), w).
Proof.
  induction names as [|name names IH]; [done|].
  change (first_missing (name :: names) (JObj fields))
    with (present ← py_contains name (JObj fields);
          if (present : bool) then first_missing names (JObj fields) else mret (Some name)).
  unmonad. destruct (dict_lookup name fields) eqn:E; cbn.
  - rewrite IH. done.
  - done.
Qed.

Lemma save_embeddings_fields request fields w :
  method request ≠ "OPTIONS" → get_json request = JObj fields → fields ≠ [] →
  save_embeddings request w =
  match find (λ name, bool_decide (dict_lookup name fields = None)) required_fields with
  | Some name => (Ok (failure 400 ("Missing required field: " +:+ name)), w)
  | None =>
      try_except
        (user_id ← py_getitem "userId" (JObj fields);
         document_id ← py_getitem "documentId" (JObj fields);
         file_name ← py_getitem "fileName" (JObj fields);
         chunks ← py_getitem "chunks" (JObj fields);
         metadata ← py_getitem "metadata" (JObj fields);
         match chunks with
         | JArr items =>
             if Nat.eqb (length items) 0 then mret (failure 400 "chunks array is empty") else
             store_document user_id document_id file_name items metadata
         | _ => mret (failure 400 "chunks must be an array")
         end)
        (λ e, mret (failure 500 e)) w
  end.
Proof.
  intros Hm Hj Hne. unfold save_embeddings.
  rewrite bool_decide_eq_false_2 by done. rewrite Hj.
  unfold py_truthy. rewrite (bool_decide_eq_false_2 (fields = [])) by done.
  generalize required_fields. intros names.
  unmonad. rewrite first_missing_obj.
  by destruct (find _ _).
Qed.

Lemma save_embeddings_present request user_id document_id file_name chunks metadata w :
  save_request request user_id document_id file_name chunks metadata →
  save_embeddings request w =
  try_except
    match chunks with
    | JArr items =>
        if Nat.eqb (length items) 0 then mret (failure 400 "chunks array is empty") else
        store_document user_id document_id file_name items metadata
    | _ => mret (failure 400 "chunks must be an array")
    end
    (λ e, mret (failure 500 e)) w.
Proof.
  intros (Hm & fields & Hj & Hu & Hd & Hf & Hc & Hmeta).
  rewrite (save_embeddings_fields _ fields) by eauto using dict_lookup_nil_inv.
  unfold required_fields, find. rewrite Hu, Hd, Hf, Hc, Hmeta.
  rewrite !bool_decide_eq_false_2 by done.
  unmonad. rewrite Hu, Hd, Hf, Hc, Hmeta. done.
Qed.

Lemma get_or_create_bucket_ok w :
  ∃ w1 pre, get_or_create_bucket w = (Ok (), w1) ∧
    calls w1 = calls w ++ pre ∧
    Forall (λ c, c = BucketExists ∨ c = CreateBucket) pre ∧
    (is_Some (bucket w1) → default ∅ (bucket w1) = default ∅ (bucket w)).
Proof.
  destruct w as [b fs log].
  unfold get_or_create_bucket, ensure_bucket, bucket_exists, create_bucket, storage_call.
  destruct fs as [|[e|] [|[e'|] fs]], b as [blobs|]; unmonad;
    first [ eexists _, [BucketExists; CreateBucket]; rewrite <-(assoc (++))
          | eexists _, [BucketExists] ];
    (split_and!; cbn; first [done | by repeat constructor; auto | by intros [? ?] ]).
Qed.

Lemma chunks_name_ne_metadata_name user_id document_id :
  chunks_name user_id document_id ≠ metadata_name user_id document_id.
Proof.
  unfold chunks_name, metadata_name. intros E.
  do 4 apply (inj (String.app _)) in E. done.
Qed.

Lemma store_document_quiet user_id document_id file_name items metadata b log :
  ∃ log',
  store_document user_id document_id file_name items metadata (World b [] log)
  = (Ok (saved document_id file_name items ("gs://" +:+ BUCKET_NAME +:+ "/" +:+ chunks_name user_id document_id)),
     World (Some (<[metadata_name user_id document_id := json_dumps metadata]>
                    (<[chunks_name user_id document_id := json_dumps (JArr items)]>
                       (default ∅ b)))) [] log').
Proof.
  unfold store_document, get_or_create_bucket, ensure_bucket.
  unmonad. rewrite bucket_exists_quiet. destruct b as [blobs|]; unmonad.
  - rewrite !upload_quiet. by eexists.
  - rewrite create_bucket_quiet, !upload_quiet. by eexists.
Qed.

Lemma store_document_status user_id document_id file_name items metadata w r w' :
  store_document user_id document_id file_name items metadata w = (Ok r, w') →
  status r = 200%Z.
Proof.
  unfold store_document. unmonad.
  destruct (get_or_create_bucket w) as [[[]|?] w1]; [|done].
  destruct (upload_from_string _ _ w1) as [[[]|?] w2]; [|done].
  destruct (upload_from_string _ _ w2) as [[[]|?] w3]; [|done].
  by intros [= <- <-].
Qed.

(** C2, as amended.  What the validation of a Save request checks is that
    the five fields are present and that [chunks] is a non-empty array:
    - an empty object is refused with "No JSON data provided";
    - if a required field is absent, the request is refused with status 400
      and an error naming an absent field;
    - if all five are present, a [chunks] that is not an array or is an
      empty array is refused with status 400, and otherwise the response is
      never 400 (it is 200, or 500 when the store fails).
    Every refusal leaves the world as it was: no storage call is made.
    Whether the strings or the metadata are empty is not looked at. *)
Theorem save_validation request fields w :
  method request ≠ "OPTIONS" →
  get_json request = JObj fields →
  (fields = [] →
     save_embeddings request w = (Ok (failure 400 "No JSON data provided"), w)) ∧
  (fields ≠ [] →
   (∃ name, name ∈ required_fields ∧ dict_lookup name fields = None) →
   ∃ name, name ∈ required_fields ∧ dict_lookup name fields = None ∧
     save_embeddings request w
     = (Ok (failure 400 ("Missing required field: " +:+ name)), w)) ∧
  ((∀ name, name ∈ required_fields → is_Some (dict_lookup name fields)) →
   ∀ chunks, dict_lookup "chunks" fields = Some chunks →
     match chunks with
     | JArr [] => save_embeddings request w = (Ok (failure 400 "chunks array is empty"), w)
     | JArr (_ :: _) =>
         ∃ r w', save_embeddings request w = (Ok r, w') ∧
                 (status r = 200%Z ∨ status r = 500%Z)
     | _ => save_embeddings request w = (Ok (failure 400 "chunks must be an array"), w)
     end).
Proof.
  intros Hm Hj. split_and!.
  - intros ->. unfold save_embeddings.
    rewrite bool_decide_eq_false_2 by done. by rewrite Hj.
  - intros Hne (name & Hin & Hnone).
    rewrite (save_embeddings_fields _ fields) by done.
    destruct (find _ required_fields) as [name'|] eqn:Hfind.
    + apply List.find_some in Hfind as [Hin' Hnone']. exists name'.
      apply bool_decide_eq_true in Hnone'.
      split_and!; [by apply list_elem_of_In|done|done].
    + apply List.find_none with (x := name) in Hfind; [|by apply list_elem_of_In].
      by rewrite bool_decide_eq_true_2 in Hfind.
  - intros Hall chunks Hchunks.
    assert (∀ name, name ∈ required_fields → ∃ v, dict_lookup name fields = Some v) as Hall'.
    { intros name Hin. by apply Hall. }
    destruct (Hall' "userId") as [user_id Hu]; [by repeat constructor|].
    destruct (Hall' "documentId") as [document_id Hd]; [by repeat constructor|].
    destruct (Hall' "fileName") as [file_name Hf]; [by repeat constructor|].
    destruct (Hall' "metadata") as [metadata Hmeta]; [by repeat constructor|].
    assert (save_request request user_id document_id file_name chunks metadata) as Hreq.
    { split; [done|]. exists fields. done. }
    rewrite (save_embeddings_present _ _ _ _ _ _ _ Hreq).
    destruct chunks as [| | | |[|item items]|]; try done.
    unmonad.
    destruct (store_document _ _ _ _ _ w) as [[r|e] w'] eqn:Hstore.
    + eexists _, _. split; [done|]. left. by eapply store_document_status.
    + eexists _, _. split; [done|]. by right.
Qed.

(** C3. A Save request whose [chunks] field is an empty array is answered
    with status 400 and the world is unchanged: the bucket, the faults to
    come and the log of storage calls are the same, so no object was written
    and no bucket was created. *)
Theorem save_empty_chunks request fields w :
  method request ≠ "OPTIONS" →
  get_json request = JObj fields →
  dict_lookup "chunks" fields = Some (JArr []) →
  ∃ r, save_embeddings request w = (Ok r, w) ∧ status r = 400%Z.
Proof.
  intros Hm Hj Hc.
  rewrite (save_embeddings_fields _ fields) by eauto using dict_lookup_nil_inv.
  destruct (find _ required_fields) as [name|] eqn:Hfind; [by eexists|].
  unfold required_fields, find in Hfind.
  repeat match type of Hfind with
  | context [dict_lookup ?k fields] =>
      lazymatch goal with
      | E : dict_lookup k fields = _ |- _ => rewrite E in Hfind
      | _ => destruct (dict_lookup k fields) eqn:?; [|by rewrite bool_decide_eq_true_2 in Hfind]
      end; rewrite bool_decide_eq_false_2 in Hfind by done
  end.
  unmonad.
  repeat match goal with E : dict_lookup _ _ = _ |- _ => rewrite E; clear E end.
  unmonad. by eexists.
Qed.

(** C8. A Save that answers 200 has made exactly two uploads, after the
    calls about the bucket: the chunks as JSON at
    [users/{userId}/documents/{documentId}/chunks.json] and then the
    metadata as JSON at [.../metadata.json].  The bucket is the one before
    (empty if it was just created) with these two objects put in place of
    whatever was there, [chunksSaved] is the number of chunks and
    [storageUrl] is [gs://myformsnapper-embeddings/] followed by the name of
    the chunks object. *)
Theorem save_writes_two_objects request user_id document_id file_name items metadata w r w' :
  save_request request user_id document_id file_name (JArr items) metadata →
  save_embeddings request w = (Ok r, w') →
  status r = 200%Z →
  let chunks_blob_name := chunks_name user_id document_id in
  let metadata_blob_name := metadata_name user_id document_id in
  let chunks_data := json_dumps (JArr items) in
  let metadata_data := json_dumps metadata in
  (∃ pre,
     calls w' = calls w ++ pre
                ++ [Upload chunks_blob_name chunks_data; Upload metadata_blob_name metadata_data] ∧
     Forall (λ c, c = BucketExists ∨ c = CreateBucket) pre) ∧
  bucket w' = Some (<[metadata_blob_name := metadata_data]>
                      (<[chunks_blob_name := chunks_data]> (default ∅ (bucket w)))) ∧
  field "chunksSaved" r = Some (JInt (Z.of_nat (length items))) ∧
  field "storageUrl" r = Some (JStr ("gs://myformsnapper-embeddings/" +:+ chunks_blob_name)).
Proof.
  intros Hreq Hrun Hst. rewrite (save_embeddings_present _ _ _ _ _ _ _ Hreq) in Hrun.
  destruct (Nat.eqb (length items) 0) eqn:Hlen; [unmonad in Hrun; by simplify_eq|].
  clear Hlen. revert Hrun. unfold store_document.
  destruct (get_or_create_bucket_ok w) as (w1 & pre & Hw1 & Hcalls & Hpre & Hb).
  unmonad. rewrite Hw1.
  destruct (upload_from_string _ _ w1) as [[[]|e] w2] eqn:Hu1; last first.
  { intros [= <- <-]. done. }
  destruct (upload_from_string _ _ w2) as [[[]|e] w3] eqn:Hu2; last first.
  { intros [= <- <-]. done. }
  intros [= <- <-].
  apply upload_inv in Hu1 as (Hc1 & _ & blobs1 & Hb1 & Hb1').
  apply upload_inv in Hu2 as (Hc2 & _ & blobs2 & Hb2 & Hb2').
  rewrite Hb1 in Hb. cbn in Hb. rewrite <-Hb by eauto.
  rewrite Hb2 in Hb1'. simplify_eq.
  split_and!; try done.
  exists pre. split; [|done]. rewrite Hc2, Hc1, Hcalls. by rewrite <-!(assoc (++)).
Qed.

(** C10, as amended.  When the check for the bucket or its creation raises,
    a valid Save goes on: the bucket is as it was, the upload of
    [chunks.json] is attempted from the world the failed attempt left and,
    if it succeeds, the upload of [metadata.json]; the answer of Save is
    decided by them alone, 200 if both succeed and otherwise 500 with the
    message of the upload that failed.  If the bucket exists and the next
    two storage calls do not fail, Save answers 200 and both objects are in
    the bucket.  If the bucket does not exist, no upload can succeed: Save
    answers 500 and there is still no bucket, although the error that kept
    the bucket from being created was swallowed. *)
Theorem save_swallows_bucket_errors
    request user_id document_id file_name items metadata w e w1 :
  save_request request user_id document_id file_name (JArr items) metadata →
  items ≠ [] →
  ensure_bucket w = (Raise e, w1) →
  let chunks_blob_name := chunks_name user_id document_id in
  let metadata_blob_name := metadata_name user_id document_id in
  let chunks_data := json_dumps (JArr items) in
  let metadata_data := json_dumps metadata in
  bucket w1 = bucket w ∧
  ∃ r w' o,
    save_embeddings request w = (Ok r, w') ∧
    (upload_from_string chunks_blob_name chunks_data;;
     upload_from_string metadata_blob_name metadata_data) w1 = (o, w') ∧
    match o with
    | Ok _ => status r = 200%Z
    | Raise e' => r = failure 500 e'
    end ∧
    (∀ blobs, bucket w = Some blobs → Forall (.= None) (take 2 (faults w1)) →
       status r = 200%Z ∧
       bucket w' = Some (<[metadata_blob_name := metadata_data]>
                           (<[chunks_blob_name := chunks_data]> blobs))) ∧
    (bucket w = None → status r = 500%Z ∧ bucket w' = None).
Proof.
  intros Hreq Hne Hraise. cbn zeta.
  assert (bucket w1 = bucket w) as Hb.
  { revert Hraise. destruct w as [b fs log].
    unfold ensure_bucket, bucket_exists, create_bucket, storage_call. unmonad.
    destruct fs as [|[?|] [|[?|] ?]], b; unmonad; by intros [= <- <-]. }
  split; [done|].
  rewrite (save_embeddings_present _ _ _ _ _ _ _ Hreq).
  destruct (Nat.eqb (length items) 0) eqn:Hlen; [by destruct items|].
  unfold store_document, get_or_create_bucket. unmonad. rewrite Hraise.
  destruct (upload_from_string _ _ w1) as [[[]|e1] w2] eqn:Hu1.
  - assert (is_Some (bucket w)) as Hsome.
    { apply upload_inv in Hu1 as (_ & _ & blobs1 & Hb1 & _). rewrite <-Hb, Hb1. eauto. }
    destruct (upload_from_string _ _ w2) as [[[]|e2] w3] eqn:Hu2.
    + eexists _, _, (Ok ()). split_and!; try done.
      * intros blobs Hblobs _.
        apply upload_inv in Hu1 as (_ & _ & blobs1 & Hb1 & Hb1').
        apply upload_inv in Hu2 as (_ & _ & blobs2 & Hb2 & Hb2').
        split; [done|]. congruence.
      * intros Hnone. rewrite Hnone in Hsome. by destruct Hsome.
    + eexists _, _, (Raise e2). split_and!; try done.
      * intros blobs Hblobs Hfaults. exfalso.
        apply upload_inv in Hu1 as (_ & Hf1 & blobs1 & Hb1 & Hb1').
        revert Hu2. destruct w2 as [b2 fs2 log2]. cbn in *. subst.
        unfold upload_from_string, storage_call. cbn.
        destruct (faults w1) as [|? [|[?|] ?]]; cbn;
          [done|done|by inversion Hfaults as [|?? _ Hf2]; inversion Hf2|done].
      * intros Hnone. rewrite Hnone in Hsome. by destruct Hsome.
  - eexists _, _, (Raise e1). split_and!; try done.
    + intros blobs Hblobs Hfaults. exfalso.
      revert Hu1. destruct w1 as [b1 fs1 log1]. cbn in *. subst.
      unfold upload_from_string, storage_call. cbn. rewrite Hblobs.
      destruct fs1 as [|[?|] ?]; cbn; [done| |done].
      by inversion Hfaults.
    + intros Hnone. split; [done|].
      apply upload_inv in Hu1 as (_ & _ & Hb1). congruence.
Qed.

End save.

(** ** Retrieve *)

Section retrieve.
Context `{PyRuntime}.

Lemma py_loads_ok text v w : json_loads text = Some v → py_loads text w = (Ok v, w).
Proof. intros E. unfold py_loads. by rewrite E. Qed.

Lemma retrieve_embeddings_request request user_id document_id w :
  lookup_request request user_id document_id →
  retrieve_embeddings request w =
  try_except
    (present ← bucket_exists;
     if negb (present : bool) then mret no_documents else
     if py_truthy document_id then retrieve_document user_id document_id
     else retrieve_all user_id)
    (λ e, mret (failure 500 e)) w.
Proof.
  intros (Hm & fields & Hj & Hu & Hd). unfold retrieve_embeddings.
  rewrite bool_decide_eq_false_2 by done. rewrite Hj.
  unfold py_truthy at 1.
  rewrite (bool_decide_eq_false_2 (fields = [])) by eauto using dict_lookup_nil_inv.
  unmonad. rewrite Hu, Hd. by rewrite bool_decide_eq_true_2 by eauto.
Qed.

Lemma retrieve_document_missing user_id document_id blobs log :
  blobs !! chunks_name user_id document_id = None →
  retrieve_document user_id document_id (World (Some blobs) [] log)
  = (Ok (failure 404 ("Document " +:+ py_str document_id +:+ " not found")),
     World (Some blobs) [] (log ++ [BlobExists (chunks_name user_id document_id)])).
Proof.
  intros Hc. unfold retrieve_document. unmonad.
  rewrite blob_exists_quiet, Hc. done.
Qed.

Lemma retrieve_document_found user_id document_id blobs log text items :
  blobs !! chunks_name user_id document_id = Some text →
  json_loads text = Some (JArr items) →
  (∀ mtext, blobs !! metadata_name user_id document_id = Some mtext →
            is_Some (json_loads mtext)) →
  ∃ log',
    retrieve_document user_id document_id (World (Some blobs) [] log)
    = (Ok (retrieved items
             (option_list (blobs !! metadata_name user_id document_id ≫= json_loads))),
       World (Some blobs) [] log').
Proof.
  intros Hc Htext Hmeta. unfold retrieve_document. unmonad.
  rewrite blob_exists_quiet, Hc. unmonad.
  rewrite (download_quiet _ _ _ _ Hc), (py_loads_ok _ _ _ Htext). unmonad.
  rewrite blob_exists_quiet.
  destruct (blobs !! metadata_name user_id document_id) as [mtext|] eqn:Hm; unmonad.
  - destruct (Hmeta mtext) as [metadata Hloads]; [done|].
    rewrite (download_quiet _ _ _ _ Hm), (py_loads_ok _ _ _ Hloads), Hloads. unmonad.
    by eexists.
  - by eexists.
Qed.

(** C1, as amended.  Save then Retrieve with the same user and document
    id, for a document id Python takes as true, which is what selects the
    single-document mode.  In a world where no storage call fails, a Save
    of a non-empty chunk list succeeds, and the Retrieve then succeeds and
    returns exactly the saved chunks, in order, and a metadata list whose
    only element is the saved metadata.  The JSON library is asked to read
    back what it wrote for these two values. *)
Theorem save_then_retrieve request_s request_r user_id document_id file_name items metadata w :
  save_request request_s user_id document_id file_name (JArr items) metadata →
  lookup_request request_r user_id document_id →
  items ≠ [] →
  py_truthy document_id = true →
  faults w = [] →
  json_loads (json_dumps (JArr items)) = Some (JArr items) →
  json_loads (json_dumps metadata) = Some metadata →
  ∃ r1 w1 r2 w2,
    save_embeddings request_s w = (Ok r1, w1) ∧ status r1 = 200%Z ∧
    retrieve_embeddings request_r w1 = (Ok r2, w2) ∧ status r2 = 200%Z ∧
    field "chunks" r2 = Some (JArr items) ∧
    field "metadata" r2 = Some (JArr [metadata]).
Proof.
  intros Hs Hr Hne Hdoc Hq Hchunks Hmeta.
  destruct w as [b fs log]. cbn in Hq. subst fs.
  rewrite (save_embeddings_present _ _ _ _ _ _ _ Hs).
  destruct (Nat.eqb (length items) 0) eqn:Hlen; [by destruct items|].
  destruct (store_document_quiet user_id document_id file_name items metadata b log)
    as [log' Hstore].
  unmonad. rewrite Hstore.
  set (c := chunks_name user_id document_id) in *.
  set (m := metadata_name user_id document_id) in *.
  assert (c ≠ m) by apply chunks_name_ne_metadata_name.
  set (blobs := <[m := _]> _).
  assert (blobs !! c = Some (json_dumps (JArr items))) as Hc by (subst blobs; by simplify_map_eq).
  assert (blobs !! m = Some (json_dumps metadata)) as Hm by (subst blobs; by simplify_map_eq).
  destruct (retrieve_document_found user_id document_id blobs (log' ++ [BucketExists])
              _ items Hc Hchunks) as [log'' Hret].
  { intros mtext. fold m. rewrite Hm. intros [= <-]. eauto. }
  fold m in Hret. rewrite Hm in Hret. cbn in Hret. rewrite Hmeta in Hret.
  eexists _, _, _, _. split; [done|]. split; [done|].
  rewrite (retrieve_embeddings_request _ _ _ _ Hr).
  unmonad. rewrite bucket_exists_quiet. unmonad. rewrite Hdoc, Hret.
  done.
Qed.

(** C4, as amended.  Retrieve for a request that supplies a document id, in
    a world where no storage call fails.  When Python takes the id as true:
    if the bucket does not exist the answer is the empty result with status
    200; if the bucket exists and has no [chunks.json] for the document the
    answer is 404; if [chunks.json] exists and holds a JSON array the answer
    is 200 with these chunks, whether or not [metadata.json] exists, and
    [documentsCount] is the length of the metadata list: 0 without
    [metadata.json], 1 with one that holds JSON.  When Python takes the id
    as false (the empty string, 0, [false], an empty list or dict, [null])
    the single-document mode is not entered: the request is answered as
    the request of the same user without document id is. *)
Theorem retrieve_document_cases request user_id document_id w :
  lookup_request request user_id document_id →
  faults w = [] →
  let chunks_blob_name := chunks_name user_id document_id in
  let metadata_blob_name := metadata_name user_id document_id in
  if py_truthy document_id then
    match bucket w with
    | None =>
        ∃ w', retrieve_embeddings request w = (Ok no_documents, w') ∧
              field "documentsCount" no_documents = Some (JInt 0)
    | Some blobs =>
        match blobs !! chunks_blob_name with
        | None =>
            ∃ r w', retrieve_embeddings request w = (Ok r, w') ∧ status r = 404%Z
        | Some text =>
            ∀ items, json_loads text = Some (JArr items) →
            match blobs !! metadata_blob_name with
            | None =>
                ∃ r w', retrieve_embeddings request w = (Ok r, w') ∧ status r = 200%Z ∧
                  field "chunks" r = Some (JArr items) ∧
                  field "metadata" r = Some (JArr []) ∧
                  field "documentsCount" r = Some (JInt 0)
            | Some mtext =>
                ∀ metadata, json_loads mtext = Some metadata →
                ∃ r w', retrieve_embeddings request w = (Ok r, w') ∧ status r = 200%Z ∧
                  field "chunks" r = Some (JArr items) ∧
                  field "metadata" r = Some (JArr [metadata]) ∧
                  field "documentsCount" r = Some (JInt 1)
            end
        end
    end
  else
    ∀ request', lookup_request request' user_id JNull →
      retrieve_embeddings request w = retrieve_embeddings request' w.
Proof.
  intros Hreq Hq. cbn zeta.
  destruct (py_truthy document_id) eqn:Hdoc; last first.
  { intros request' Hreq'.
    rewrite (retrieve_embeddings_request _ _ _ _ Hreq),
      (retrieve_embeddings_request _ _ _ _ Hreq').
    by rewrite Hdoc. }
  destruct w as [b fs log]. cbn in Hq. subst fs.
  rewrite (retrieve_embeddings_request _ _ _ _ Hreq).
  unmonad. rewrite bucket_exists_quiet. destruct b as [blobs|]; unmonad; [|by eexists].
  rewrite Hdoc.
  destruct (blobs !! chunks_name user_id document_id) as [text|] eqn:Hc; last first.
  { rewrite (retrieve_document_missing _ _ _ _ Hc). by eexists _, _. }
  intros items Hitems.
  pose proof (retrieve_document_found user_id document_id blobs (log ++ [BucketExists])
                text items Hc Hitems) as Hfound.
  destruct (blobs !! metadata_name user_id document_id) as [mtext|] eqn:Hmeta.
  - intros metadata Hloads. destruct Hfound as [log' ->].
    { intros ? [= <-]. eauto. }
    cbn. rewrite Hloads. by eexists _, _.
  - destruct Hfound as [log' ->]; [done|]. by eexists _, _.
Qed.

Lemma stored_json_download blobs name v log :
  stored_json blobs name = Some v →
  (text ← download_as_text name; py_loads text) (World (Some blobs) [] log)
  = (Ok v, World (Some blobs) [] (log ++ [Download name])).
Proof.
  unfold stored_json. destruct (blobs !! name) as [text|] eqn:Hname; [|done].
  cbn. intros Hloads. unmonad.
  by rewrite (download_quiet _ _ _ _ Hname), (py_loads_ok _ _ _ Hloads).
Qed.

Lemma collect_quiet blobs listing documents : ∀ all_chunks all_metadata log,
  (∀ doc files, (doc, files) ∈ documents →
     ∀ file, files !! file = listed_file listing doc file) →
  (∀ name, name ∈ listing → file_of name = Some "chunks.json" →
     ∃ items, stored_json blobs name = Some (JArr items)) →
  (∀ name, name ∈ listing → file_of name = Some "metadata.json" →
     is_Some (stored_json blobs name)) →
  ∃ log',
    collect documents all_chunks all_metadata (World (Some blobs) [] log)
    = (Ok (all_chunks ++ concat (map (document_chunks blobs listing) documents.*1),
           all_metadata ++ concat (map (document_metadata blobs listing) documents.*1)),
       World (Some blobs) [] log').
Proof.
  induction documents as [|[doc files] documents IH];
    intros all_chunks all_metadata log Hfiles Hchunks Hmeta.
  { exists log. by rewrite !app_nil_r. }
  change (collect ((doc, files) :: documents) all_chunks all_metadata)
    with (all_chunks ←
            match files !! "chunks.json" with
            | Some blob =>
                chunks_data ← download_as_text blob;
                chunks ← py_loads chunks_data;
                py_extend all_chunks chunks
            | None => mret all_chunks
            end;
          all_metadata ←
            match files !! "metadata.json" with
            | Some blob =>
                metadata_data ← download_as_text blob;
                metadata ← py_loads metadata_data;
                mret (all_metadata ++ [metadata])
            | None => mret all_metadata
            end;
          collect documents all_chunks all_metadata).
  cbn [fmap list_fmap map concat fst]. unfold document_chunks at 1, document_metadata at 1.
  rewrite <-!(Hfiles doc files) by (by left).
  assert (∃ log1,
    (match files !! "chunks.json" with
     | Some blob =>
         chunks_data ← download_as_text blob;
         chunks ← py_loads chunks_data;
         py_extend all_chunks chunks
     | None => mret all_chunks
     end) (World (Some blobs) [] log)
    = (Ok (all_chunks ++ match files !! "chunks.json" ≫= stored_json blobs with
                         | Some (JArr items) => items
                         | _ => []
                         end), World (Some blobs) [] log1)) as [log1 Hstep1].
  { destruct (files !! "chunks.json") as [name|] eqn:Hname; cbn.
    - destruct (listed_file_Some listing doc "chunks.json" name) as [Hin Hfile].
      { by rewrite <-(Hfiles doc files) by (by left). }
      destruct (Hchunks name Hin Hfile) as [items Hitems].
      pose proof (stored_json_download blobs name _ log Hitems) as Hdl.
      revert Hdl. unmonad. intros Hdl. rewrite Hitems.
      destruct (download_as_text name _) as [[text|e] w1]; [|done].
      rewrite Hdl. by eexists.
    - exists log. by rewrite app_nil_r. }
  assert (∀ log1, ∃ log2,
    (match files !! "metadata.json" with
     | Some blob =>
         metadata_data ← download_as_text blob;
         metadata ← py_loads metadata_data;
         mret (all_metadata ++ [metadata])
     | None => mret all_metadata
     end) (World (Some blobs) [] log1)
    = (Ok (all_metadata ++ option_list (files !! "metadata.json" ≫= stored_json blobs)),
       World (Some blobs) [] log2)) as Hstep2.
  { intros log1'. destruct (files !! "metadata.json") as [name|] eqn:Hname; cbn.
    - destruct (listed_file_Some listing doc "metadata.json" name) as [Hin Hfile].
      { by rewrite <-(Hfiles doc files) by (by left). }
      destruct (Hmeta name Hin Hfile) as [metadata Hmetadata].
      pose proof (stored_json_download blobs name _ log1' Hmetadata) as Hdl.
      revert Hdl. unmonad. intros Hdl. rewrite Hmetadata.
      destruct (download_as_text name _) as [[text|e] w1]; [|done].
      rewrite Hdl. by eexists.
    - exists log1'. by rewrite app_nil_r. }
  destruct (Hstep2 log1) as [log2 Hstep2']. clear Hstep2.
  set (cs := match files !! "chunks.json" ≫= stored_json blobs with
             | Some (JArr items) => items
             | _ => []
             end) in *.
  set (ms := option_list (files !! "metadata.json" ≫= stored_json blobs)) in *.
  destruct (IH (all_chunks ++ cs) (all_metadata ++ ms) log2) as [log' Hrest]; [|done..|].
  { intros doc' files' Hin. apply Hfiles. by right. }
  exists log'.
  rewrite (bind_Ok _ _ _ _ _ Hstep1), (bind_Ok _ _ _ _ _ Hstep2'), Hrest.
  by rewrite <-!(assoc (++)).
Qed.

(** C5. Retrieve for all the documents of a user, in a world where no
    storage call fails and the listed [chunks.json] objects hold JSON arrays
    and the listed [metadata.json] objects hold JSON: the listed objects are
    grouped by their fourth segment, the documents are taken in the order
    the listing meets them, the chunks of each document that has a
    [chunks.json] are concatenated, the metadata of each document that has a
    [metadata.json] is appended, a document with one of the two files gives
    what it has, and [documentsCount] is the length of the metadata list.
    The store is left as it was. *)
Theorem retrieve_all_documents request user_id document_id w blobs :
  lookup_request request user_id document_id →
  py_truthy document_id = false →
  faults w = [] →
  bucket w = Some blobs →
  let listing := blobs_with_prefix (user_prefix user_id) blobs in
  (∀ name, name ∈ listing → file_of name = Some "chunks.json" →
     ∃ items, stored_json blobs name = Some (JArr items)) →
  (∀ name, name ∈ listing → file_of name = Some "metadata.json" →
     is_Some (stored_json blobs name)) →
  let all_chunks := concat (map (document_chunks blobs listing) (listed_documents listing)) in
  let all_metadata :=
    concat (map (document_metadata blobs listing) (listed_documents listing)) in
  ∃ r w',
    retrieve_embeddings request w = (Ok r, w') ∧ status r = 200%Z ∧
    bucket w' = Some blobs ∧
    field "chunks" r = Some (JArr all_chunks) ∧
    field "metadata" r = Some (JArr all_metadata) ∧
    field "documentsCount" r = Some (JInt (Z.of_nat (length all_metadata))).
Proof.
  intros Hreq Hdoc Hq Hb listing Hchunks Hmeta. cbn zeta.
  destruct w as [b fs log]. cbn in Hq, Hb. subst fs b.
  rewrite (retrieve_embeddings_request _ _ _ _ Hreq).
  unmonad. rewrite bucket_exists_quiet. unmonad. rewrite Hdoc.
  unfold retrieve_all. unmonad. rewrite list_blobs_quiet. unmonad. fold listing.
  destruct (group_blobs_spec listing) as [Hkeys Hfiles].
  destruct (collect_quiet blobs listing (group_blobs listing) [] []
              ((log ++ [BucketExists]) ++ [ListBlobs (user_prefix user_id)]))
    as [log' Hcollect]; [|done..|].
  { intros doc files Hin file. rewrite <-Hfiles.
    rewrite (dict_lookup_elem_of doc files); [done| |done].
    rewrite Hkeys. apply NoDup_first_seen. }
  rewrite Hcollect, Hkeys. cbn. by eexists _, _.
Qed.

End retrieve.

(** ** Delete *)

Section delete.
Context `{PyRuntime}.

Lemma delete_embeddings_request request user_id document_id w :
  lookup_request request user_id document_id →
  delete_embeddings request w =
  try_except
    (present ← bucket_exists;
     if negb (present : bool) then mret (deleted 0 "No documents to delete") else
     if py_truthy document_id then delete_document user_id document_id
     else delete_all user_id)
    (λ e, mret (failure 500 e)) w.
Proof.
  intros (Hm & fields & Hj & Hu & Hd). unfold delete_embeddings.
  rewrite bool_decide_eq_false_2 by done. rewrite Hj.
  unfold py_truthy at 1.
  rewrite (bool_decide_eq_false_2 (fields = [])) by eauto using dict_lookup_nil_inv.
  unmonad. rewrite Hu, Hd. by rewrite bool_decide_eq_true_2 by eauto.
Qed.

Lemma delete_all_quiet user_id blobs log :
  let listing := blobs_with_prefix (user_prefix user_id) blobs in
  ∃ message log' blobs',
    delete_all user_id (World (Some blobs) [] log)
    = (Ok (deleted (length (remove_dups (omap document_of listing))) message),
       World (Some blobs') [] log') ∧
    log' = log ++ ListBlobs (user_prefix user_id) :: map DeleteBlob listing ∧
    ∀ name, blobs' !! name
            = if String.prefix (user_prefix user_id) name then None else blobs !! name.
Proof.
  cbn zeta. unfold delete_all. unmonad. rewrite list_blobs_quiet. unmonad.
  destruct (delete_listing_quiet (user_prefix user_id) blobs
              (log ++ [ListBlobs (user_prefix user_id)])) as (blobs' & -> & Hlook).
  rewrite size_documents. eexists _, _, blobs'. split; [done|].
  split; [by rewrite <-(assoc (++))|done].
Qed.

Lemma split_object_name user_id d file :
  no_slash (py_str user_id) = true → no_slash d = true →
  str_split slash (user_prefix user_id +:+ d +:+ "/" +:+ file)
  = "users" :: py_str user_id :: "documents" :: d :: str_split slash file.
Proof.
  intros Hu Hd. unfold user_prefix. rewrite !string_app_assoc.
  change ("users/" +:+ ?x) with ("users" +:+ String slash x).
  rewrite str_split_app_slash by done.
  change ("/documents/" +:+ ?x) with (String slash ("documents" +:+ String slash x)).
  rewrite str_split_app_slash by done.
  rewrite str_split_app_slash by done.
  change ("/" +:+ file) with (String slash file).
  by rewrite str_split_app_slash by done.
Qed.

Lemma document_of_object user_id d file :
  no_slash (py_str user_id) = true → no_slash d = true →
  document_of (user_prefix user_id +:+ d +:+ "/" +:+ file) = Some d.
Proof.
  intros Hu Hd. unfold document_of, has_file_segment, fourth_segment.
  rewrite split_object_name by done.
  pose proof (str_split_not_nil slash file). by destruct (str_split slash file).
Qed.

(** C7, as amended.  Delete for a request that supplies a document id, in a
    world where no storage call fails.  When Python takes the id as true:
    if the bucket does not exist the answer is status 200 with
    [documentsDeleted = 0]; if it exists and nothing is listed under the
    document's prefix the answer is 404 and the bucket is unchanged;
    otherwise every listed object is deleted, the others are kept, and the
    answer is status 200 with [documentsDeleted = 1].  When Python takes the
    id as false (the empty string, 0, [false], an empty list or dict,
    [null]) the specific-document mode is not entered: the request is
    answered as the request of the same user without document id is, which
    deletes all the documents of the user. *)
Theorem delete_document_cases request user_id document_id w :
  lookup_request request user_id document_id →
  faults w = [] →
  let prefix := document_prefix user_id document_id in
  if py_truthy document_id then
    match bucket w with
    | None =>
        ∃ r w', delete_embeddings request w = (Ok r, w') ∧ status r = 200%Z ∧
          field "documentsDeleted" r = Some (JInt 0) ∧ bucket w' = None
    | Some blobs =>
        match blobs_with_prefix prefix blobs with
        | [] =>
            ∃ r w', delete_embeddings request w = (Ok r, w') ∧ status r = 404%Z ∧
              bucket w' = Some blobs
        | listing =>
            ∃ r w' blobs', delete_embeddings request w = (Ok r, w') ∧ status r = 200%Z ∧
              field "documentsDeleted" r = Some (JInt 1) ∧
              bucket w' = Some blobs' ∧
              (∀ name, name ∈ listing → blobs' !! name = None) ∧
              (∀ name, name ∉ listing → blobs' !! name = blobs !! name) ∧
              calls w' = calls w ++ [BucketExists; ListBlobs prefix] ++ map DeleteBlob listing
        end
    end
  else
    ∀ request', lookup_request request' user_id JNull →
      delete_embeddings request w = delete_embeddings request' w.
Proof.
  intros Hreq Hq. cbn zeta.
  destruct (py_truthy document_id) eqn:Hdoc; last first.
  { intros request' Hreq'.
    rewrite (delete_embeddings_request _ _ _ _ Hreq),
      (delete_embeddings_request _ _ _ _ Hreq').
    by rewrite Hdoc. }
  destruct w as [b fs log]. cbn in Hq. subst fs.
  rewrite (delete_embeddings_request _ _ _ _ Hreq).
  unmonad. rewrite bucket_exists_quiet. destruct b as [blobs|]; unmonad; [|by eexists _, _].
  rewrite Hdoc. unfold delete_document. unmonad. rewrite list_blobs_quiet. unmonad.
  set (prefix := document_prefix user_id document_id).
  destruct (delete_blobs_quiet (blobs_with_prefix prefix blobs) blobs
              ((log ++ [BucketExists]) ++ [ListBlobs prefix])) as (blobs' & Hrun & Hlook).
  { apply NoDup_blobs_with_prefix. }
  { intros name. rewrite elem_of_blobs_with_prefix. tauto. }
  destruct (blobs_with_prefix prefix blobs) as [|name listing] eqn:Hlisting.
  { by eexists _, _. }
  rewrite bool_decide_eq_false_2 by done. unmonad. rewrite Hrun.
  eexists _, _, blobs'. split_and!; try done.
  - intros n Hn. by rewrite Hlook, decide_True.
  - intros n Hn. by rewrite Hlook, decide_False.
  - by rewrite <-!(assoc (++)).
Qed.

(** C6, as amended.  Delete for all the documents of a user, when the bucket
    exists and no storage call fails: every object under the user's prefix
    is deleted and no other; [documentsDeleted] is the number of distinct
    fourth segments of the listed objects that have a file segment, not the
    number of objects; and when the user id and the [N] distinct document
    ids contain no slash and the listed objects are the files of these
    documents, [documentsDeleted] is [N]. *)
Theorem delete_all_documents request user_id document_id w blobs :
  lookup_request request user_id document_id →
  py_truthy document_id = false →
  faults w = [] →
  bucket w = Some blobs →
  let prefix := user_prefix user_id in
  let listing := blobs_with_prefix prefix blobs in
  ∃ r w' blobs',
    delete_embeddings request w = (Ok r, w') ∧ status r = 200%Z ∧
    bucket w' = Some blobs' ∧
    (∀ name, blobs' !! name = if String.prefix prefix name then None else blobs !! name) ∧
    field "documentsDeleted" r
    = Some (JInt (Z.of_nat (length (remove_dups (omap document_of listing))))) ∧
    (∀ docs : list string,
       no_slash (py_str user_id) = true →
       NoDup docs →
       (∀ doc, doc ∈ docs → no_slash doc = true) →
       (∀ name, name ∈ listing →
          ∃ doc file, doc ∈ docs ∧ name = prefix +:+ doc +:+ "/" +:+ file) →
       (∀ doc, doc ∈ docs → ∃ file, prefix +:+ doc +:+ "/" +:+ file ∈ listing) →
       field "documentsDeleted" r = Some (JInt (Z.of_nat (length docs)))).
Proof.
  intros Hreq Hdoc Hq Hb. cbn zeta. destruct w as [b fs log]. cbn in Hq, Hb. subst fs b.
  rewrite (delete_embeddings_request _ _ _ _ Hreq).
  unmonad. rewrite bucket_exists_quiet. unmonad. rewrite Hdoc.
  destruct (delete_all_quiet user_id blobs (log ++ [BucketExists]))
    as (message & log' & blobs' & -> & _ & Hlook).
  eexists _, _, blobs'. split_and!; try done.
  intros docs Hu Hnd Hfree Hnames Hdocs.
  cut (length (remove_dups (omap document_of
         (blobs_with_prefix (user_prefix user_id) blobs))) = length docs); [by intros ->|].
  apply Permutation_length, NoDup_Permutation; [apply NoDup_remove_dups|done|].
  intros doc. rewrite elem_of_remove_dups, list_elem_of_omap. split.
  - intros (name & Hname & Hof).
    destruct (Hnames name Hname) as (doc' & file & Hdoc' & ->).
    rewrite document_of_object in Hof by auto. by simplify_eq.
  - intros Hin. destruct (Hdocs doc Hin) as [file Hfile].
    eexists. split; [done|]. apply document_of_object; auto.
Qed.

(** C9. Delete for all the documents of a user, when the bucket exists and
    no storage call fails: every listed object is deleted, also one whose
    name has fewer than five segments, and [documentsDeleted] is the number
    of distinct fourth segments among the listed names with at least five
    segments.  That number is at most the number of distinct fourth segments
    of all the listed names, and it can be smaller: with an object
    [users/u/documents/readme] beside one document, two groups of objects
    are deleted and one document is reported. *)
Theorem delete_all_counts_documents :
  (∀ request user_id document_id w blobs,
     lookup_request request user_id document_id →
     py_truthy document_id = false →
     faults w = [] →
     bucket w = Some blobs →
     let listing := blobs_with_prefix (user_prefix user_id) blobs in
     let counted := filter (λ name, has_file_segment name = true) listing in
     ∃ r w' blobs',
       delete_embeddings request w = (Ok r, w') ∧
       bucket w' = Some blobs' ∧
       (∀ name, name ∈ listing → blobs' !! name = None) ∧
       calls w' = calls w ++ [BucketExists; ListBlobs (user_prefix user_id)]
                  ++ map DeleteBlob listing ∧
       field "documentsDeleted" r
       = Some (JInt (Z.of_nat (length (remove_dups (omap fourth_segment counted))))) ∧
       length (remove_dups (omap fourth_segment counted))
       ≤ length (remove_dups (omap fourth_segment listing))) ∧
  (∃ request w blobs listing,
     bucket w = Some blobs ∧
     listing = blobs_with_prefix (user_prefix (JStr "u")) blobs ∧
     (∃ w', delete_embeddings request w = (Ok (deleted 1 "Successfully deleted 1 documents for user u"), w')
            ∧ bucket w' = Some ∅) ∧
     length (remove_dups (omap fourth_segment listing)) = 2).
Proof.
  split.
  - intros request user_id document_id w blobs Hreq Hdoc Hq Hb. cbn zeta.
    destruct w as [b fs log]. cbn in Hq, Hb. subst fs b.
    rewrite (delete_embeddings_request _ _ _ _ Hreq).
    unmonad. rewrite bucket_exists_quiet. unmonad. rewrite Hdoc.
    destruct (delete_all_quiet user_id blobs (log ++ [BucketExists]))
      as (message & log' & blobs' & -> & -> & Hlook).
    eexists _, _, blobs'. split_and!; try done.
    + intros name [_ Hp]%elem_of_blobs_with_prefix. by rewrite Hlook, Hp.
    + by rewrite <-(assoc (++)).
    + cbn. by rewrite omap_document_of.
    + apply length_remove_dups_filter.
  - exists (Request "POST" (JObj [("userId", JStr "u")])),
      (World (Some (<["users/u/documents/readme" := "notes"]>
                      {["users/u/documents/d/chunks.json" := "[]"]})) [] []).
    eexists _, _. split; [done|]. split; [done|]. split.
    + eexists. split; vm_compute; reflexivity.
    + vm_compute. reflexivity.
Qed.

End delete.

(** * Further properties of the handlers *)

(** ** A program logic for the handlers *)

Section logic.
Context {A B : Type} (R : relation world) `{!PreOrder R}.

Lemma establishes_ret (Q : A → Prop) (a : A) : Q a → establishes R Q (mret a).
Proof. intros Ha w. split; [reflexivity|]. by intros ? [= <-]. Qed.

Lemma establishes_raise (Q : A → Prop) (msg : string) : establishes R Q (raise msg).
Proof. intros w. split; [reflexivity|]. by intros ? [=]. Qed.

Lemma establishes_bind (P : A → Prop) (Q : B → Prop) (m : M A) (k : A → M B) :
  establishes R P m → (∀ a, P a → establishes R Q (k a)) → establishes R Q (m ≫= k).
Proof.
  intros Hm Hk w. destruct (Hm w) as [Hw Ha].
  unfold mbind, M_bind, bind. destruct (m w) as [[a|e] w1]; cbn in *.
  - destruct (Hk a (Ha a eq_refl) w1) as [Hw1 Hb]. split; [by etrans|done].
  - split; [done|]. by intros ? [=].
Qed.

Lemma establishes_try_except (Q : A → Prop) (m : M A) (handler : string → M A) :
  establishes R Q m → (∀ e, establishes R Q (handler e)) →
  establishes R Q (try_except m handler).
Proof.
  intros Hm Hh w. destruct (Hm w) as [Hw Ha].
  unfold try_except. destruct (m w) as [[a|e] w1]; cbn in *.
  - split; [done|]. intros ? [= <-]. by apply Ha.
  - destruct (Hh e w1) as [Hw1 Hb]. split; [by etrans|done].
Qed.

Lemma establishes_weaken (P Q : A → Prop) (m : M A) :
  (∀ a, P a → Q a) → establishes R P m → establishes R Q m.
Proof. intros HPQ Hm w. destruct (Hm w) as [Hw Ha]. split; [done|]. eauto. Qed.

End logic.


Global Instance anything_preorder : PreOrder anything.
Proof. by split. Qed.

Lemma establishes_anything {A} (m : M A) : establishes anything (λ _, True) m.
Proof. by intros w. Qed.

Ltac logic_step :=
  lazymatch goal with
  | |- PreOrder _ => apply _
  | |- establishes _ _ (mret _) => apply establishes_ret
  | |- establishes _ _ (raise _) => apply establishes_raise
  | |- establishes _ _ (_ ≫= _) => eapply (establishes_bind _ (λ _, True)); [..|intros ? _]
  | |- establishes _ _ (try_except _ _) => apply establishes_try_except; [..|intros ?]
  | |- establishes _ _ (if ?b then _ else _) => destruct b
  | |- establishes _ _ (match ?x with _ => _ end) => destruct x
  end.

Ltac well_formed_response :=
  split_and!; [reflexivity|cbn; rewrite !elem_of_cons; tauto|reflexivity].

Lemma try_except_returns {A} (Q : A → Prop) (m : M A) (recover : string → A) w :
  establishes anything Q (try_except m (λ e, mret (recover e))) →
  ∃ a w', try_except m (λ e, mret (recover e)) w = (Ok a, w') ∧ Q a.
Proof.
  intros Hm. destruct (Hm w) as [_ Ha]. revert Ha. unfold try_except.
  destruct (m w) as [[a|e] w']; cbn; eauto.
Qed.

Section responses.
Context `{PyRuntime}.

Lemma store_document_well_formed user_id document_id file_name items metadata :
  establishes anything (well_formed [200; 400; 500]%Z)
    (store_document user_id document_id file_name items metadata).
Proof.
  unfold store_document.
  repeat first [apply establishes_anything | logic_step]. well_formed_response.
Qed.

(** X1. Save always answers: whatever the request, the bucket and the
    faults of the storage service, no exception leaves the handler, and the
    answer is the preflight answer or a response with the CORS header, a
    status among 200, 400 and 500, and a [success] field that is true
    exactly when the status is 200. *)
Theorem save_embeddings_total request w :
  ∃ r w', save_embeddings request w = (Ok r, w') ∧
          (r = preflight ∨ well_formed [200; 400; 500]%Z r).
Proof.
  unfold save_embeddings. case_bool_decide; [by eexists _, _; split; [|left]|].
  match goal with |- context [try_except ?m ?h] =>
    assert (establishes anything (well_formed [200; 400; 500]%Z) (try_except m h)) as Hbody
  end.
  { repeat first [apply establishes_anything | apply store_document_well_formed | logic_step].
    all: well_formed_response. }
  destruct (try_except_returns _ _ _ w Hbody) as (r & w' & -> & Hr). eauto.
Qed.


Lemma retrieve_document_well_formed user_id document_id :
  establishes anything (well_formed [200; 400; 404; 500]%Z)
    (retrieve_document user_id document_id).
Proof.
  unfold retrieve_document.
  repeat first [apply establishes_anything | logic_step]; well_formed_response.
Qed.

Lemma retrieve_all_well_formed user_id :
  establishes anything (well_formed [200; 400; 404; 500]%Z) (retrieve_all user_id).
Proof.
  unfold retrieve_all.
  repeat first [apply establishes_anything | logic_step]; well_formed_response.
Qed.

(** X2. Retrieve always answers: no exception leaves the handler, and the
    answer is the preflight answer or a response with the CORS header, a
    status among 200, 400, 404 and 500, and a [success] field that is true
    exactly when the status is 200. *)
Theorem retrieve_embeddings_total request w :
  ∃ r w', retrieve_embeddings request w = (Ok r, w') ∧
          (r = preflight ∨ well_formed [200; 400; 404; 500]%Z r).
Proof.
  unfold retrieve_embeddings. case_bool_decide; [by eexists _, _; split; [|left]|].
  match goal with |- context [try_except ?m ?h] =>
    assert (establishes anything (well_formed [200; 400; 404; 500]%Z) (try_except m h))
      as Hbody
  end.
  { repeat first [apply establishes_anything | apply retrieve_document_well_formed
                 | apply retrieve_all_well_formed | logic_step].
    all: well_formed_response. }
  destruct (try_except_returns _ _ _ w Hbody) as (r & w' & -> & Hr). eauto.
Qed.

Lemma delete_document_well_formed user_id document_id :
  establishes anything (well_formed [200; 400; 404; 500]%Z)
    (delete_document user_id document_id).
Proof.
  unfold delete_document.
  repeat first [apply establishes_anything | logic_step]; well_formed_response.
Qed.

Lemma delete_all_well_formed user_id :
  establishes anything (well_formed [200; 400; 404; 500]%Z) (delete_all user_id).
Proof.
  unfold delete_all.
  repeat first [apply establishes_anything | logic_step]; well_formed_response.
Qed.

(** X3. Delete always answers: no exception leaves the handler, and the
    answer is the preflight answer or a response with the CORS header, a
    status among 200, 400, 404 and 500, and a [success] field that is true
    exactly when the status is 200. *)
Theorem delete_embeddings_total request w :
  ∃ r w', delete_embeddings request w = (Ok r, w') ∧
          (r = preflight ∨ well_formed [200; 400; 404; 500]%Z r).
Proof.
  unfold delete_embeddings. case_bool_decide; [by eexists _, _; split; [|left]|].
  match goal with |- context [try_except ?m ?h] =>
    assert (establishes anything (well_formed [200; 400; 404; 500]%Z) (try_except m h))
      as Hbody
  end.
  { repeat first [apply establishes_anything | apply delete_document_well_formed
                 | apply delete_all_well_formed | logic_step].
    all: well_formed_response. }
  destruct (try_except_returns _ _ _ w Hbody) as (r & w' & -> & Hr). eauto.
Qed.

End responses.

(** ** What the handlers leave alone *)

Create HintDb handlers discriminated.

Section pure_operations.
Context (R : relation world) `{!PreOrder R} `{PyRuntime}.

Lemma py_contains_pure key container : establishes R (λ _, True) (py_contains key container).
Proof. unfold py_contains, py_getitem, py_get. destruct container; repeat logic_step; done. Qed.

Lemma py_getitem_pure key container : establishes R (λ _, True) (py_getitem key container).
Proof. unfold py_contains, py_getitem, py_get. destruct container; repeat logic_step; done. Qed.

Lemma py_get_pure key container : establishes R (λ _, True) (py_get key container).
Proof. unfold py_contains, py_getitem, py_get. destruct container; repeat logic_step; done. Qed.

Lemma py_extend_pure acc v : establishes R (λ _, True) (py_extend acc v).
Proof. unfold py_extend. destruct v; repeat logic_step; done. Qed.

Lemma py_loads_pure text : establishes R (λ _, True) (py_loads text).
Proof. unfold py_loads. repeat logic_step; done. Qed.

Lemma first_missing_pure names request_json :
  establishes R (λ _, True) (first_missing names request_json).
Proof.
  induction names as [|name names IH]; [by apply establishes_ret|].
  change (first_missing (name :: names) request_json)
    with (present ← py_contains name request_json;
          if (present : bool) then first_missing names request_json else mret (Some name)).
  eapply (establishes_bind _ (λ _, True)); [apply py_contains_pure|].
  intros [] _; [done|by apply establishes_ret].
Qed.

End pure_operations.

#[export] Hint Resolve py_contains_pure py_getitem_pure py_get_pure py_extend_pure
  py_loads_pure first_missing_pure : handlers.

Global Instance only_reads_preorder : PreOrder only_reads.
Proof.
  split.
  - intros w. split; [done|]. exists []. by rewrite app_nil_r.
  - intros w1 w2 w3 (Hb1 & new1 & Hc1 & Hn1) (Hb2 & new2 & Hc2 & Hn2). split; [congruence|].
    exists (new1 ++ new2). rewrite Hc2, Hc1, (assoc (++)). split; [done|].
    by apply Forall_app.
Qed.

Lemma storage_call_reads {A} (c : api_call) (act : option (gmap string string) → _) :
  read_call c → (∀ b, (act b).2 = b) →
  establishes only_reads (λ _ : A, True) (storage_call c act).
Proof.
  intros Hc Hact [b fs log]. split; [|done]. unfold storage_call. cbn.
  assert (Forall read_call [c]) by (by repeat constructor).
  specialize (Hact b).
  destruct fs as [|[e|] fs]; cbn; [destruct (act b)..| |destruct (act b)]; cbn in *; subst;
    (split; [done|by exists [c]]).
Qed.

Lemma bucket_exists_reads : establishes only_reads (λ _, True) bucket_exists.
Proof. unfold bucket_exists. by apply storage_call_reads; [exact I|]. Qed.
Lemma blob_exists_reads name : establishes only_reads (λ _, True) (blob_exists name).
Proof. unfold blob_exists. by apply storage_call_reads; [exact I|]. Qed.
Lemma download_as_text_reads name : establishes only_reads (λ _, True) (download_as_text name).
Proof.
  unfold download_as_text. apply storage_call_reads; [exact I|].
  intros b. by destruct (b ≫= _).
Qed.
Lemma list_blobs_reads prefix : establishes only_reads (λ _, True) (list_blobs prefix).
Proof. unfold list_blobs. apply storage_call_reads; [exact I|]. by intros []. Qed.

#[export] Hint Resolve bucket_exists_reads blob_exists_reads download_as_text_reads
  list_blobs_reads : handlers.

Ltac logic := repeat first [solve [eauto 2 with handlers typeclass_instances] | logic_step].

Section readonly.
Context `{PyRuntime}.

Lemma collect_reads documents : ∀ all_chunks all_metadata,
  establishes only_reads (λ _, True) (collect documents all_chunks all_metadata).
Proof.
  induction documents as [|[doc files] documents IH]; intros all_chunks all_metadata.
  { change (establishes only_reads (λ _, True) (mret (all_chunks, all_metadata))).
    by logic. }
  change (collect ((doc, files) :: documents) all_chunks all_metadata)
    with (all_chunks ←
            match files !! "chunks.json" with
            | Some blob =>
                chunks_data ← download_as_text blob;
                chunks ← py_loads chunks_data;
                py_extend all_chunks chunks
            | None => mret all_chunks
            end;
          all_metadata ←
            match files !! "metadata.json" with
            | Some blob =>
                metadata_data ← download_as_text blob;
                metadata ← py_loads metadata_data;
                mret (all_metadata ++ [metadata])
            | None => mret all_metadata
            end;
          collect documents all_chunks all_metadata).
  logic.
Qed.

(** X4. Retrieve only reads: whatever the request and whatever fails, the
    bucket is left as it was, and the storage calls made are among
    [bucket.exists], [blob.exists], [download_as_text] and [list_blobs]. *)
Theorem retrieve_embeddings_reads request w :
  only_reads w (retrieve_embeddings request w).2.
Proof.
  cut (establishes only_reads (λ _, True) (retrieve_embeddings request)).
  { intros Hr. apply Hr. }
  unfold retrieve_embeddings, retrieve_document, retrieve_all.
  pose proof collect_reads. logic.
Qed.

End readonly.

(** ** Delete removes and Save writes, whatever fails *)

Global Instance only_removes_preorder P : PreOrder (only_removes P).
Proof.
  split.
  - intros [b fs log]. unfold only_removes. cbn.
    split; [destruct b; auto|]. exists []. by rewrite app_nil_r.
  - intros [b1 ? ?] [b2 ? ?] [b3 ? ?]. unfold only_removes. cbn.
    intros [Hb1 (new1 & Hc1 & Hn1)] [Hb2 (new2 & Hc2 & Hn2)]. split.
    + destruct b1 as [m1|], b2 as [m2|], b3 as [m3|]; try done.
      intros name. destruct (Hb1 name) as [E1|[E1 HP]], (Hb2 name) as [E2|[E2 HP']].
      * left. congruence.
      * by right.
      * right. split; [congruence|done].
      * by right.
    + exists (new1 ++ new2). rewrite Hc2, Hc1, (assoc (++)). split; [done|].
      by apply Forall_app.
Qed.

Lemma bucket_exists_removes P : establishes (only_removes P) (λ _, True) bucket_exists.
Proof.
  intros [b fs log]. split; [|done]. unfold only_removes, bucket_exists, storage_call. cbn.
  destruct fs as [|[e|] fs]; cbn; (split; [destruct b; auto|exists [BucketExists]]);
    by repeat constructor.
Qed.

Lemma list_blobs_removes P prefix :
  establishes (only_removes P)
    (λ names, ∀ name, name ∈ names → String.prefix prefix name = true)
    (list_blobs prefix).
Proof.
  intros [b fs log]. unfold only_removes, list_blobs, storage_call. cbn. split.
  - destruct fs as [|[e|] fs], b; cbn; (split; [auto|exists [ListBlobs prefix]]);
      by repeat constructor.
  - intros names.
    destruct fs as [|[e|] fs], b as [blobs|]; cbn; intros [= <-];
      intros name Hname; by apply elem_of_blobs_with_prefix in Hname as [_ ?].
Qed.

Lemma blob_delete_removes (P : string → Prop) name :
  P name → establishes (only_removes P) (λ _, True) (blob_delete name).
Proof.
  intros HP [b fs log]. split; [|done]. unfold only_removes, blob_delete, storage_call. cbn.
  assert (Forall (delete_call P) [DeleteBlob name]) by (by repeat constructor).
  destruct fs as [|[e|] fs], b as [blobs|]; cbn; try case_bool_decide; cbn;
    (split; [|by exists [DeleteBlob name]]); auto.
  all: intros n; destruct (decide (n = name)) as [->|];
    [right; by rewrite lookup_delete_eq|left; by rewrite lookup_delete_ne].
Qed.

Lemma delete_blobs_removes (P : string → Prop) names :
  (∀ name, name ∈ names → P name) →
  establishes (only_removes P) (λ _, True) (delete_blobs names).
Proof.
  induction names as [|name names IH]; intros HP.
  { change (delete_blobs []) with (mret (M := M) ()). by logic. }
  change (delete_blobs (name :: names)) with (blob_delete name;; delete_blobs names).
  eapply (establishes_bind _ (λ _, True)).
  - apply blob_delete_removes, HP. by left.
  - intros _ _. apply IH. intros n Hn. apply HP. by right.
Qed.

Section isolation.
Context `{PyRuntime}.

Lemma delete_lookup_removes user_id document_id :
  establishes
    (only_removes (λ name, String.prefix (delete_prefix user_id document_id) name = true))
    (λ _, True)
    (try_except
       (present ← bucket_exists;
        if negb (present : bool) then mret (deleted 0 "No documents to delete") else
        if py_truthy document_id then delete_document user_id document_id
        else delete_all user_id)
       (λ e, mret (failure 500 e))).
Proof.
  set (P := λ name, String.prefix (delete_prefix user_id document_id) name = true).
  pose proof (only_removes_preorder P).
  apply (establishes_try_except (only_removes P)); [|intros e; by apply establishes_ret].
  apply (establishes_bind (only_removes P) (λ _, True)); [apply bucket_exists_removes|].
  intros [] _; cbn; [|by apply establishes_ret].
  unfold delete_document, delete_all.
  assert (∀ names : list string,
            (∀ name, name ∈ names → P name) →
            ∀ r : response,
              establishes (only_removes P) (λ _, True) (delete_blobs names;; mret r))
    as Hdelete.
  { intros names Hnames r.
    apply (establishes_bind (only_removes P) (λ _, True)); [by apply delete_blobs_removes|].
    intros _ _. by apply establishes_ret. }
  subst P. unfold delete_prefix in *. destruct (py_truthy document_id).
  - eapply establishes_bind; [apply _|apply list_blobs_removes|]. intros names Hnames.
    case_bool_decide; [by apply establishes_ret|]. by apply Hdelete.
  - eapply establishes_bind; [apply _|apply list_blobs_removes|]. intros names Hnames.
    by apply Hdelete.
Qed.

(** X5. Delete only removes what it lists: whatever fails, every object
    of the bucket is either as it was or gone, an object that is gone has a
    name under the prefix of the request (the document's prefix when the
    request names a document, the user's otherwise), a bucket is neither
    created nor written, and the storage calls made are [bucket.exists],
    [list_blobs] and deletions under that prefix. *)
Theorem delete_embeddings_removes request user_id document_id w :
  lookup_request request user_id document_id →
  only_removes (λ name, String.prefix (delete_prefix user_id document_id) name = true)
    w (delete_embeddings request w).2.
Proof.
  intros Hreq. rewrite (delete_embeddings_request _ _ _ _ Hreq).
  apply delete_lookup_removes.
Qed.

End isolation.

Global Instance only_writes_preorder names : PreOrder (only_writes names).
Proof.
  split.
  - intros w. split_and!; [done..|]. exists []. rewrite app_nil_r. split_and!; [done..|].
    intros _. apply not_elem_of_nil.
  - intros w1 w2 w3 (Hb1 & Ho1 & new1 & Hc1 & Hn1 & Hx1) (Hb2 & Ho2 & new2 & Hc2 & Hn2 & Hx2).
    split_and!; [by auto|by intros name Hname; rewrite Ho2, Ho1|].
    exists (new1 ++ new2). rewrite Hc2, Hc1, (assoc (++)).
    split_and!; [done|by apply Forall_app|].
    intros Hsome. rewrite elem_of_app. intros [?|?]; [by apply Hx1|by apply Hx2; auto].
Qed.

Lemma get_or_create_bucket_writes names :
  establishes (only_writes names) (λ _, True) get_or_create_bucket.
Proof.
  intros [b fs log]. split; [|done].
  unfold only_writes, get_or_create_bucket, ensure_bucket, bucket_exists, create_bucket,
    storage_call.
  destruct fs as [|[e|] [|[e'|] fs]], b as [blobs|]; unmonad.
  all: split_and!; [by eauto|by intros|].
  all: first [ exists [BucketExists; CreateBucket]; rewrite <-(assoc (++))
             | exists [BucketExists] ].
  all: split_and!; [done| |].
  all: try (by repeat constructor).
  all: try (by intros [? [=]]).
  all: intros _; rewrite ?elem_of_cons, elem_of_nil; intros [|]; done.
Qed.

Lemma upload_writes names name data :
  name ∈ names → establishes (only_writes names) (λ _, True) (upload_from_string name data).
Proof.
  intros Hname [b fs log]. split; [|done].
  unfold only_writes, upload_from_string, storage_call. cbn.
  assert (Forall (save_call names) [Upload name data]) as Hcall.
  { constructor; [exact Hname|constructor]. }
  destruct fs as [|[e|] fs], b as [blobs|]; cbn.
  all: split_and!; [by eauto| |].
  all: try (intros n Hn; cbn; try done; apply lookup_insert_ne; by intros ->).
  all: exists [Upload name data]; split_and!; [done..|].
  all: intros _; rewrite elem_of_cons, elem_of_nil; intros [|]; done.
Qed.

Section save_isolation.
Context `{PyRuntime}.

(** X6. Save only writes its two objects: whatever fails, every object
    other than [chunks.json] and [metadata.json] of the document is as it
    was, a bucket that existed still exists and is not created again, and
    the storage calls made are [bucket.exists], [create_bucket] and uploads
    of these two objects. *)
Theorem save_embeddings_writes request user_id document_id file_name chunks metadata w :
  save_request request user_id document_id file_name chunks metadata →
  only_writes [chunks_name user_id document_id; metadata_name user_id document_id]
    w (save_embeddings request w).2.
Proof.
  intros Hreq. rewrite (save_embeddings_present _ _ _ _ _ _ _ Hreq).
  set (names := [chunks_name user_id document_id; metadata_name user_id document_id]).
  pose proof (only_writes_preorder names).
  match goal with |- only_writes _ _ (?m w).2 =>
    cut (establishes (only_writes names) (λ _, True) m); [intros Hm; apply Hm|]
  end.
  apply (establishes_try_except (only_writes names)); [|intros e; by apply establishes_ret].
  destruct chunks as [| | | |items|]; try by apply establishes_ret.
  destruct (Nat.eqb _ _); [by apply establishes_ret|].
  unfold store_document.
  apply (establishes_bind (only_writes names) (λ _, True));
    [apply get_or_create_bucket_writes|intros _ _].
  apply (establishes_bind (only_writes names) (λ _, True));
    [apply upload_writes; by left|intros _ _].
  apply (establishes_bind (only_writes names) (λ _, True));
    [apply upload_writes; by right; left|intros _ _].
  by apply establishes_ret.
Qed.

(** A request that is not valid does not reach the store. *)
Lemma py_getitem_not_object key container :
  (∀ fields, container ≠ JObj fields) →
  establishes eq (λ _, False) (py_getitem key container).
Proof.
  intros Hc. unfold py_getitem.
  destruct container as [| | | | |fields]; [apply (establishes_raise eq)..|].
  by destruct (Hc fields).
Qed.

Lemma save_embeddings_not_object request w :
  (∀ fields, get_json request ≠ JObj fields) → (save_embeddings request w).2 = w.
Proof.
  intros Hj. unfold save_embeddings. case_bool_decide; [done|].
  match goal with |- (?m _).2 = _ =>
    cut (establishes eq (λ _, True) m); [intros Hm'; symmetry; apply Hm'|]
  end.
  apply (establishes_try_except eq); [|intros e; by apply (establishes_ret eq)].
  destruct (negb _); [by apply (establishes_ret eq)|].
  apply (establishes_bind eq (λ _, True)); [apply first_missing_pure; apply _|].
  intros [name|] _; [by apply (establishes_ret eq)|].
  apply (establishes_bind eq (λ _, False)); [by apply py_getitem_not_object|done].
Qed.

(** X7. Save makes no storage call for a request it rejects: either the
    world is left exactly as it was (no call is even logged), or the body
    is a JSON object with the five fields and a non-empty list of
    chunks. *)
Theorem save_embeddings_reaches_store request w :
  (save_embeddings request w).2 = w ∨
  ∃ user_id document_id file_name items metadata,
    save_request request user_id document_id file_name (JArr items) metadata ∧ items ≠ [].
Proof.
  destruct (decide (method request = "OPTIONS")) as [Hm|Hm].
  { left. unfold save_embeddings. by rewrite bool_decide_eq_true_2. }
  destruct (get_json request) as [| | | | |fields] eqn:Hj.
  1-5: left; apply save_embeddings_not_object; intros fields; by rewrite Hj.
  destruct (decide (fields = [])) as [->|Hne].
  { left. unfold save_embeddings. by rewrite bool_decide_eq_false_2, Hj by done. }
  rewrite (save_embeddings_fields _ fields) by done.
  destruct (find _ required_fields) as [name|] eqn:Hfind; [by left|].
  assert (∀ name, In name required_fields → ∃ v, dict_lookup name fields = Some v) as Hall.
  { intros name Hname. apply (List.find_none _ _ Hfind) in Hname.
    apply bool_decide_eq_false in Hname. by destruct (dict_lookup name fields); eauto. }
  destruct (Hall "userId") as [user_id Hu]; [cbn; tauto|].
  destruct (Hall "documentId") as [document_id Hd]; [cbn; tauto|].
  destruct (Hall "fileName") as [file_name Hf]; [cbn; tauto|].
  destruct (Hall "chunks") as [chunks Hc]; [cbn; tauto|].
  destruct (Hall "metadata") as [metadata Hmeta]; [cbn; tauto|].
  unmonad. rewrite Hu, Hd, Hf, Hc, Hmeta. unmonad.
  destruct chunks as [| | | |[|item items]|]; try by left.
  right. exists user_id, document_id, file_name, (item :: items), metadata.
  split; [|done]. split; [done|]. by exists fields.
Qed.

(** X8. Save is not atomic: when the upload of [metadata.json] fails after
    the upload of [chunks.json] succeeded, the answer is status 500 with
    the message of the failure, and [chunks.json] stays written without its
    [metadata.json]. *)
Theorem save_partial_write
    request user_id document_id file_name items metadata blobs e rest log :
  save_request request user_id document_id file_name (JArr items) metadata →
  items ≠ [] →
  save_embeddings request (World (Some blobs) (None :: None :: Some e :: rest) log)
  = (Ok (failure 500 e),
     World (Some (<[chunks_name user_id document_id := json_dumps (JArr items)]> blobs))
       rest
       (log ++ [BucketExists;
                Upload (chunks_name user_id document_id) (json_dumps (JArr items));
                Upload (metadata_name user_id document_id) (json_dumps metadata)])).
Proof.
  intros Hreq Hne. rewrite (save_embeddings_present _ _ _ _ _ _ _ Hreq).
  destruct (Nat.eqb (length items) 0) eqn:Hlen; [by destruct items|].
  unfold store_document, get_or_create_bucket, ensure_bucket, bucket_exists,
    upload_from_string, storage_call.
  unmonad. by rewrite <-!(assoc (++)).
Qed.

End save_isolation.

Section lookup_handlers.
Context `{PyRuntime}.

Lemma lookup_body_pure (request_json : json) (continue : json → json → M response) :
  (∀ fields, request_json ≠ JObj fields) →
  establishes eq (λ _, True)
    (if negb (py_truthy request_json) then mret (failure 400 "No JSON data provided") else
     has_user ← py_contains "userId" request_json;
     if negb (has_user : bool) then mret (failure 400 "Missing required field: userId") else
     user_id ← py_getitem "userId" request_json;
     document_id ← py_get "documentId" request_json;
     continue user_id document_id).
Proof.
  intros Hj. destruct (negb _); [by apply (establishes_ret eq)|].
  apply (establishes_bind eq (λ _, True)); [apply py_contains_pure; apply _|].
  intros [] _; [|by apply (establishes_ret eq)].
  apply (establishes_bind eq (λ _, False)); [by apply py_getitem_not_object|done].
Qed.

Lemma lookup_request_intro request fields user_id :
  method request ≠ "OPTIONS" → get_json request = JObj fields →
  dict_lookup "userId" fields = Some user_id →
  lookup_request request user_id (default JNull (dict_lookup "documentId" fields)).
Proof. intros Hm Hj Hu. split; [done|]. by exists fields. Qed.

(** X9. Retrieve and Delete make no storage call for a request they
    reject: either the world is left exactly as it was, or the body is a
    JSON object with a [userId]. *)
Theorem lookup_handlers_reach_store request w :
  ((retrieve_embeddings request w).2 = w ∨
   ∃ user_id document_id, lookup_request request user_id document_id) ∧
  ((delete_embeddings request w).2 = w ∨
   ∃ user_id document_id, lookup_request request user_id document_id).
Proof.
  destruct (decide (method request = "OPTIONS")) as [Hm|Hm].
  { unfold retrieve_embeddings, delete_embeddings. rewrite !bool_decide_eq_true_2 by done.
    split; by left. }
  destruct (get_json request) as [| | | | |fields] eqn:Hj.
  1-5: unfold retrieve_embeddings, delete_embeddings;
    rewrite !bool_decide_eq_false_2, Hj by done;
    split; left; symmetry;
    match goal with |- _ = (try_except ?m ?h _).2 =>
      cut (establishes eq (λ _, True) (try_except m h)); [intros Hm'; apply Hm'|]
    end;
    (apply (establishes_try_except eq); [|intros e; by apply (establishes_ret eq)]);
    by apply lookup_body_pure.
  destruct (dict_lookup "userId" fields) as [user_id|] eqn:Hu.
  { split; right; eauto using lookup_request_intro. }
  unfold retrieve_embeddings, delete_embeddings.
  rewrite !bool_decide_eq_false_2, Hj by done.
  split; left; unmonad; destruct (negb _); unmonad; try done; by rewrite Hu.
Qed.

(** X10. When the bucket check itself fails, Retrieve and Delete answer
    status 500 with the message of the failure, after that one storage
    call and with the bucket untouched: the failure is not taken for a
    missing bucket. *)
Theorem bucket_check_fails request user_id document_id b e rest log :
  lookup_request request user_id document_id →
  retrieve_embeddings request (World b (Some e :: rest) log)
  = (Ok (failure 500 e), World b rest (log ++ [BucketExists])) ∧
  delete_embeddings request (World b (Some e :: rest) log)
  = (Ok (failure 500 e), World b rest (log ++ [BucketExists])).
Proof.
  intros Hreq.
  by rewrite (retrieve_embeddings_request _ _ _ _ Hreq),
             (delete_embeddings_request _ _ _ _ Hreq).
Qed.

(** X11. Retrieve for one document (a document id Python takes as true), in
    a world where the bucket exists and no storage call fails, when
    [chunks.json] does not hold JSON: the answer has status 500, the CORS
    header, [success] false and an error text, after checking the bucket,
    checking the object and downloading it; [metadata.json] is not looked
    at and the bucket is left as it was. *)
Theorem retrieve_corrupt_chunks request user_id document_id blobs log text :
  lookup_request request user_id document_id →
  py_truthy document_id = true →
  blobs !! chunks_name user_id document_id = Some text →
  json_loads text = None →
  ∃ r,
    retrieve_embeddings request (World (Some blobs) [] log)
    = (Ok r,
       World (Some blobs) []
         (log ++ [BucketExists;
                  BlobExists (chunks_name user_id document_id);
                  Download (chunks_name user_id document_id)])) ∧
    status r = 500%Z ∧
    headers r = cors ∧
    field "success" r = Some (JBool false) ∧
    ∃ e, field "error" r = Some (JStr e).
Proof.
  intros Hreq Hdoc Hc Htext. rewrite (retrieve_embeddings_request _ _ _ _ Hreq).
  unmonad. rewrite bucket_exists_quiet. unmonad. rewrite Hdoc.
  unfold retrieve_document. unmonad.
  rewrite blob_exists_quiet, Hc. unmonad.
  rewrite (download_quiet _ _ _ _ Hc). unfold py_loads. rewrite Htext. unmonad.
  eexists. split; [by rewrite <-!(assoc (++))|]. split_and!; try done. by eexists.
Qed.

End lookup_handlers.

(** ** Sequences of requests *)

Lemma prefix_app (p s : string) : String.prefix p (p +:+ s) = true.
Proof.
  induction p as [|c p IH]; [by destruct s|].
  change (String c p +:+ s) with (String c (p +:+ s)). cbn.
  by destruct (ascii_dec c c).
Qed.

Lemma blobs_with_prefix_nil prefix (blobs : gmap string string) :
  (∀ name, String.prefix prefix name = true → blobs !! name = None) →
  blobs_with_prefix prefix blobs = [].
Proof.
  intros Hnone. destruct (blobs_with_prefix prefix blobs) as [|name l] eqn:Hl; [done|]. assert (name ∈ blobs_with_prefix prefix blobs) as [[v Hv] Hp]%elem_of_blobs_with_prefix by (rewrite Hl; left).
  by rewrite Hnone in Hv.
Qed.

Section sequences.
Context `{PyRuntime}.

Lemma chunks_name_document_prefix user_id document_id :
  chunks_name user_id document_id = document_prefix user_id document_id +:+ "chunks.json".
Proof. unfold chunks_name, document_prefix. by rewrite !string_app_assoc. Qed.

Lemma metadata_name_document_prefix user_id document_id :
  metadata_name user_id document_id = document_prefix user_id document_id +:+ "metadata.json".
Proof. unfold metadata_name, document_prefix. by rewrite !string_app_assoc. Qed.

Lemma chunks_name_user_prefix user_id document_id :
  chunks_name user_id document_id
  = user_prefix user_id +:+ py_str document_id +:+ "/" +:+ "chunks.json".
Proof. unfold chunks_name, user_prefix. by rewrite !string_app_assoc. Qed.

Lemma metadata_name_user_prefix user_id document_id :
  metadata_name user_id document_id
  = user_prefix user_id +:+ py_str document_id +:+ "/" +:+ "metadata.json".
Proof. unfold metadata_name, user_prefix. by rewrite !string_app_assoc. Qed.

Lemma delete_document_nothing_listed user_id document_id blobs log :
  blobs_with_prefix (document_prefix user_id document_id) blobs = [] →
  delete_document user_id document_id (World (Some blobs) [] log)
  = (Ok (failure 404 ("Document " +:+ py_str document_id +:+ " not found")),
     World (Some blobs) [] (log ++ [ListBlobs (document_prefix user_id document_id)])).
Proof.
  intros Hnil. unfold delete_document. unmonad. rewrite list_blobs_quiet. unmonad.
  by rewrite Hnil.
Qed.

(** X12. Save, Delete, Retrieve and Delete again, for one user and one
    document id that Python takes as true (which is what makes the Delete
    and the Retrieve act on one document), in a world where no storage call
    fails: the Save of a non-empty chunk list succeeds, the Delete succeeds
    with [documentsDeleted = 1], the Retrieve then answers 404, and so does
    the second Delete. *)
Theorem save_delete_retrieve
    request_s request_l user_id document_id file_name items metadata w :
  save_request request_s user_id document_id file_name (JArr items) metadata →
  lookup_request request_l user_id document_id →
  items ≠ [] →
  py_truthy document_id = true →
  faults w = [] →
  ∃ r1 w1 r2 w2 r3 w3 r4 w4,
    save_embeddings request_s w = (Ok r1, w1) ∧ status r1 = 200%Z ∧
    delete_embeddings request_l w1 = (Ok r2, w2) ∧ status r2 = 200%Z ∧
    field "documentsDeleted" r2 = Some (JInt 1) ∧
    retrieve_embeddings request_l w2 = (Ok r3, w3) ∧ status r3 = 404%Z ∧
    delete_embeddings request_l w3 = (Ok r4, w4) ∧ status r4 = 404%Z.
Proof.
  intros Hs Hl Hne Hdoc Hq. destruct w as [b fs log]. cbn in Hq. subst fs.
  rewrite (save_embeddings_present _ _ _ _ _ _ _ Hs).
  destruct (Nat.eqb (length items) 0) eqn:Hlen; [by destruct items|].
  destruct (store_document_quiet user_id document_id file_name items metadata b log)
    as [log1 Hstore].
  unmonad. rewrite Hstore. clear Hstore.
  set (prefix := document_prefix user_id document_id).
  set (blobs1 := <[_ := _]> _).
  assert (chunks_name user_id document_id ∈ blobs_with_prefix prefix blobs1) as Hlisted.
  { apply elem_of_blobs_with_prefix. split.
    - subst blobs1. rewrite lookup_insert_ne by (by apply not_eq_sym, chunks_name_ne_metadata_name).
      rewrite lookup_insert_eq. eauto.
    - rewrite chunks_name_document_prefix. apply prefix_app. }
  destruct (delete_listing_quiet prefix blobs1 ((log1 ++ [BucketExists]) ++ [ListBlobs prefix]))
    as (blobs2 & Hdelete & Hlook).
  assert (blobs2 !! chunks_name user_id document_id = None) as Hgone.
  { rewrite Hlook, chunks_name_document_prefix. by rewrite prefix_app. }
  assert (blobs_with_prefix prefix blobs2 = []) as Hnil.
  { apply blobs_with_prefix_nil. intros name Hp. by rewrite Hlook, Hp. }
  do 8 eexists. split; [done|]. split; [done|].
  rewrite (delete_embeddings_request _ _ _ _ Hl).
  unmonad. rewrite bucket_exists_quiet. unmonad. rewrite Hdoc.
  unfold delete_document at 1. unmonad. rewrite list_blobs_quiet. unmonad. fold prefix.
  rewrite bool_decide_eq_false_2 by (intros Heq; rewrite Heq in Hlisted; by apply elem_of_nil in Hlisted).
  unmonad. rewrite Hdelete. unmonad.
  split; [done|]. split; [done|]. split; [done|].
  rewrite (retrieve_embeddings_request _ _ _ _ Hl).
  unmonad. rewrite bucket_exists_quiet. unmonad. rewrite Hdoc.
  rewrite (retrieve_document_missing _ _ _ _ Hgone). unmonad.
  split; [done|]. split; [done|].
  rewrite (delete_embeddings_request _ _ _ _ Hl).
  unmonad. rewrite bucket_exists_quiet. unmonad. rewrite Hdoc.
  rewrite (delete_document_nothing_listed _ _ _ _ Hnil). unmonad.
  done.
Qed.

Lemma retrieve_all_nothing_listed user_id blobs log :
  blobs_with_prefix (user_prefix user_id) blobs = [] →
  retrieve_all user_id (World (Some blobs) [] log)
  = (Ok (retrieved [] []), World (Some blobs) [] (log ++ [ListBlobs (user_prefix user_id)])).
Proof.
  intros Hnil. unfold retrieve_all. unmonad. rewrite list_blobs_quiet. unmonad.
  by rewrite Hnil.
Qed.

(** X13. Delete for all the documents of a user followed by Retrieve for
    all the documents of that user, in a world where no storage call fails,
    whether or not the bucket exists: the Delete succeeds, and the Retrieve
    succeeds with no chunks, no metadata and [documentsCount = 0], leaving
    the bucket as the Delete left it. *)
Theorem delete_all_then_retrieve_all request user_id document_id w :
  lookup_request request user_id document_id →
  py_truthy document_id = false →
  faults w = [] →
  ∃ r1 w1 r2 w2,
    delete_embeddings request w = (Ok r1, w1) ∧ status r1 = 200%Z ∧
    retrieve_embeddings request w1 = (Ok r2, w2) ∧ status r2 = 200%Z ∧
    field "chunks" r2 = Some (JArr []) ∧
    field "metadata" r2 = Some (JArr []) ∧
    field "documentsCount" r2 = Some (JInt 0) ∧
    bucket w2 = bucket w1.
Proof.
  intros Hreq Hdoc Hq. destruct w as [[blobs|] fs log]; cbn in Hq; subst fs.
  - rewrite (delete_embeddings_request _ _ _ _ Hreq).
    unmonad. rewrite bucket_exists_quiet. unmonad. rewrite Hdoc.
    destruct (delete_all_quiet user_id blobs (log ++ [BucketExists]))
      as (message & log' & blobs' & -> & _ & Hlook).
    assert (blobs_with_prefix (user_prefix user_id) blobs' = []) as Hnil.
    { apply blobs_with_prefix_nil. intros name Hp. by rewrite Hlook, Hp. }
    eexists _, _, _, _. split; [done|]. split; [done|].
    rewrite (retrieve_embeddings_request _ _ _ _ Hreq).
    unmonad. rewrite bucket_exists_quiet. unmonad. rewrite Hdoc.
    by rewrite (retrieve_all_nothing_listed _ _ _ Hnil).
  - rewrite (delete_embeddings_request _ _ _ _ Hreq).
    unmonad. rewrite bucket_exists_quiet. unmonad.
    eexists _, _, _, _. split; [done|]. split; [done|].
    rewrite (retrieve_embeddings_request _ _ _ _ Hreq).
    unmonad. rewrite bucket_exists_quiet. by unmonad.
Qed.

End sequences.

(** ** Save, then Retrieve for all the documents *)

Lemma filter_none {A} (P : A → Prop) `{∀ x, Decision (P x)} (l : list A) :
  (∀ x, x ∈ l → ¬ P x) → filter P l = [].
Proof.
  intros Hnone. destruct (filter P l) as [|x l'] eqn:Hl; [done|].
  assert (x ∈ filter P l) as [Px Hx]%list_elem_of_filter by (rewrite Hl; left).
  by destruct (Hnone x).
Qed.

Lemma filter_unique {A} (P : A → Prop) `{∀ x, Decision (P x)} (l : list A) x :
  NoDup l → x ∈ l → (∀ y, y ∈ l → P y ↔ y = x) → filter P l = [x].
Proof.
  induction l as [|y l IH]; intros Hnd Hin HP; [by apply elem_of_nil in Hin|].
  apply NoDup_cons in Hnd as [Hy Hnd]. rewrite filter_cons.
  case_decide as Py.
  - apply HP in Py as ->; [|by left]. f_equal.
    apply filter_none. intros z Hz Pz.
    apply HP in Pz; [|by right]. by subst z.
  - apply IH; [done| |].
    + apply elem_of_cons in Hin as [->|Hin]; [|done].
      destruct Py. apply HP; [by left|done].
    + intros z Hz. apply HP. by right.
Qed.

Lemma first_seen_constant (l : list string) d :
  l ≠ [] → (∀ x, x ∈ l → x = d) → first_seen l = [d].
Proof.
  induction l as [|x l IH]; intros Hne Hall; [done|].
  assert (x = d) as -> by (apply Hall; left).
  cbn. f_equal.
  apply filter_none. intros y Hy Hyd.
  apply (proj1 (elem_of_first_seen _ _)) in Hy. apply Hyd, Hall. by right.
Qed.

Section save_then_list.
Context `{PyRuntime}.

Lemma file_of_chunks user_id d :
  no_slash (py_str user_id) = true → no_slash d = true →
  file_of (user_prefix user_id +:+ d +:+ "/" +:+ "chunks.json") = Some "chunks.json".
Proof.
  intros Hu Hd. unfold file_of, has_file_segment. by rewrite split_object_name by done.
Qed.

Lemma file_of_metadata user_id d :
  no_slash (py_str user_id) = true → no_slash d = true →
  file_of (user_prefix user_id +:+ d +:+ "/" +:+ "metadata.json") = Some "metadata.json".
Proof.
  intros Hu Hd. unfold file_of, has_file_segment. by rewrite split_object_name by done.
Qed.

Lemma retrieve_all_quiet user_id blobs log :
  let listing := blobs_with_prefix (user_prefix user_id) blobs in
  (∀ name, name ∈ listing → file_of name = Some "chunks.json" →
     ∃ items, stored_json blobs name = Some (JArr items)) →
  (∀ name, name ∈ listing → file_of name = Some "metadata.json" →
     is_Some (stored_json blobs name)) →
  ∃ log',
    retrieve_all user_id (World (Some blobs) [] log)
    = (Ok (retrieved
             (concat (map (document_chunks blobs listing) (listed_documents listing)))
             (concat (map (document_metadata blobs listing) (listed_documents listing)))),
       World (Some blobs) [] log').
Proof.
  intros listing Hchunks Hmeta.
  unfold retrieve_all. unmonad. rewrite list_blobs_quiet. unmonad. fold listing.
  destruct (group_blobs_spec listing) as [Hkeys Hfiles].
  destruct (collect_quiet blobs listing (group_blobs listing) [] []
              (log ++ [ListBlobs (user_prefix user_id)]))
    as [log' Hcollect]; [|done..|].
  { intros doc files Hin file. rewrite <-Hfiles.
    rewrite (dict_lookup_elem_of doc files); [done| |done].
    rewrite Hkeys. apply NoDup_first_seen. }
  rewrite Hcollect, Hkeys. cbn. by eexists.
Qed.

(** X14. Save then Retrieve for all the documents of the user.  When the
    user id and the document id have no slash, the user has no object in
    the bucket before the Save and no storage call fails, the names Save
    writes are parsed back by Retrieve into one document: the answer has
    exactly the saved chunks, the saved metadata as only metadata, and
    [documentsCount = 1].  The JSON library is asked to read back what it
    wrote for these two values. *)
Theorem save_then_retrieve_all
    request_s request_r user_id document_id absent file_name items metadata w :
  save_request request_s user_id document_id file_name (JArr items) metadata →
  lookup_request request_r user_id absent →
  py_truthy absent = false →
  items ≠ [] →
  no_slash (py_str user_id) = true →
  no_slash (py_str document_id) = true →
  faults w = [] →
  (∀ blobs name, bucket w = Some blobs →
     String.prefix (user_prefix user_id) name = true → blobs !! name = None) →
  json_loads (json_dumps (JArr items)) = Some (JArr items) →
  json_loads (json_dumps metadata) = Some metadata →
  ∃ r1 w1 r2 w2,
    save_embeddings request_s w = (Ok r1, w1) ∧ status r1 = 200%Z ∧
    retrieve_embeddings request_r w1 = (Ok r2, w2) ∧ status r2 = 200%Z ∧
    field "chunks" r2 = Some (JArr items) ∧
    field "metadata" r2 = Some (JArr [metadata]) ∧
    field "documentsCount" r2 = Some (JInt 1).
Proof.
  intros Hs Hr Habsent Hne Hu Hd Hq Hfresh Hchunks Hmeta.
  destruct w as [b fs log]. cbn in Hq, Hfresh. subst fs.
  rewrite (save_embeddings_present _ _ _ _ _ _ _ Hs).
  destruct (Nat.eqb (length items) 0) eqn:Hlen; [by destruct items|].
  destruct (store_document_quiet user_id document_id file_name items metadata b log)
    as [log1 Hstore].
  unmonad. rewrite Hstore. clear Hstore.
  set (d := py_str document_id) in *.
  set (c := chunks_name user_id document_id) in *.
  set (m := metadata_name user_id document_id) in *.
  assert (c ≠ m) as Hcm by apply chunks_name_ne_metadata_name.
  set (blobs := <[m := _]> _).
  set (listing := blobs_with_prefix (user_prefix user_id) blobs).
  assert (blobs !! c = Some (json_dumps (JArr items))) as Hc by (subst blobs; by simplify_map_eq).
  assert (blobs !! m = Some (json_dumps metadata)) as Hm by (subst blobs; by simplify_map_eq).
  assert (c = user_prefix user_id +:+ d +:+ "/" +:+ "chunks.json") as Hcname
    by apply chunks_name_user_prefix.
  assert (m = user_prefix user_id +:+ d +:+ "/" +:+ "metadata.json") as Hmname
    by apply metadata_name_user_prefix.
  assert (document_of c = Some d ∧ file_of c = Some "chunks.json") as [Hcd Hcf].
  { rewrite Hcname. split; [by apply document_of_object|by apply file_of_chunks]. }
  assert (document_of m = Some d ∧ file_of m = Some "metadata.json") as [Hmd Hmf].
  { rewrite Hmname. split; [by apply document_of_object|by apply file_of_metadata]. }
  assert (∀ name, name ∈ listing ↔ name = c ∨ name = m) as Hlisting.
  { intros name. unfold listing. rewrite elem_of_blobs_with_prefix. split.
    - intros [Hsome Hp]. destruct (decide (name = m)) as [|Hnm]; [by right|].
      destruct (decide (name = c)) as [|Hnc]; [by left|].
      subst blobs. rewrite !lookup_insert_ne in Hsome by done.
      destruct b as [blobs0|]; cbn in Hsome.
      + rewrite (Hfresh blobs0 name) in Hsome by done. by destruct Hsome.
      + rewrite lookup_empty in Hsome. by destruct Hsome.
    - intros [->| ->].
      + split; [by rewrite Hc|]. rewrite Hcname. apply prefix_app.
      + split; [by rewrite Hm|]. rewrite Hmname. apply prefix_app. }
  assert (NoDup listing) as Hnd by apply NoDup_blobs_with_prefix.
  assert (listed_documents listing = [d]) as Hdocs.
  { unfold listed_documents. apply first_seen_constant.
    - assert (c ∈ listing) as Hin by (apply Hlisting; by left).
      destruct listing as [|x l]; [by apply elem_of_nil in Hin|].
      destruct (document_of x) eqn:Hx; [by cbn; rewrite Hx|].
      assert (x = c ∨ x = m) as [->| ->] by (apply Hlisting; by left); congruence.
    - intros doc (name & Hin & Hdoc)%list_elem_of_omap.
      apply Hlisting in Hin as [->| ->]; congruence. }
  assert (listed_file listing d "chunks.json" = Some c) as Hlc.
  { unfold listed_file. rewrite (filter_unique _ listing c); [done|done| |].
    - apply Hlisting. by left.
    - intros name Hin. apply Hlisting in Hin as [->| ->]; [done|].
      split; [intros [_ Hf]; congruence|intros Heq; by destruct Hcm]. }
  assert (listed_file listing d "metadata.json" = Some m) as Hlm.
  { unfold listed_file. rewrite (filter_unique _ listing m); [done|done| |].
    - apply Hlisting. by right.
    - intros name Hin. apply Hlisting in Hin as [->| ->]; [|done].
      split; [intros [_ Hf]; congruence|intros Heq; by destruct Hcm]. }
  destruct (retrieve_all_quiet user_id blobs (log1 ++ [BucketExists])) as [log2 Hret].
  { fold listing. intros name [->| ->]%Hlisting Hf; [|congruence].
    exists items. unfold stored_json. by rewrite Hc. }
  { fold listing. intros name [->| ->]%Hlisting Hf; [congruence|].
    exists metadata. unfold stored_json. by rewrite Hm. }
  fold listing in Hret. rewrite Hdocs in Hret. cbn in Hret.
  unfold document_chunks, document_metadata in Hret. rewrite Hlc, Hlm in Hret.
  cbn in Hret. unfold stored_json in Hret. rewrite Hc, Hm in Hret. cbn in Hret.
  rewrite Hchunks, Hmeta in Hret. cbn in Hret. rewrite !app_nil_r in Hret.
  eexists _, _, _, _. split; [done|]. split; [done|].
  rewrite (retrieve_embeddings_request _ _ _ _ Hr).
  unmonad. rewrite bucket_exists_quiet. unmonad. rewrite Habsent, Hret.
  done.
Qed.

End save_then_list.

(** ** scrape_linkedin *)

(** X15. What [scrape_linkedin] sends upstream: nothing for a preflight
    request or a body Python takes as false, and otherwise exactly one post,
    to the Toolhouse URL, of the request body as it came. *)
Theorem scrape_linkedin_forwards request u :
  answer (scrape_linkedin request u).2 = answer u ∧
  posted (scrape_linkedin request u).2
  = posted u ++
    (if bool_decide (method request = "OPTIONS") || negb (py_truthy (get_json request))
     then [] else [(toolhouse_url, get_json request)]).
Proof.
  unfold scrape_linkedin. case_bool_decide; cbn; [by rewrite app_nil_r|].
  destruct (py_truthy (get_json request)); cbn; [|by rewrite app_nil_r].
  destruct (answer u (get_json request)) as [r|e]; [|done].
  destruct (reply_ok r); cbn; [|done]. by destruct (reply_json r).
Qed.

(** X16. [scrape_linkedin] answers 200 exactly when the request is not a
    preflight, its body is taken as true, the post returned without
    raising, the upstream status is outside 400..599 and the upstream body
    decodes as JSON; the answer then carries that JSON unchanged, with
    status 200 whatever the upstream status was. *)
Theorem scrape_linkedin_relays request u :
  status (scrape_linkedin request u).1 = 200%Z ↔
  method request ≠ "OPTIONS" ∧ py_truthy (get_json request) = true ∧
  ∃ r j, answer u (get_json request) = Ok r ∧
         ¬ (400 ≤ status_code r < 600)%Z ∧ reply_json r = Some j ∧
         (scrape_linkedin request u).1 = Response (JsonBody j) 200 cors.
Proof.
  unfold scrape_linkedin. split.
  - case_bool_decide; cbn; [done|].
    destruct (py_truthy (get_json request)); cbn; [|done].
    destruct (answer u (get_json request)) as [r|e]; [|done].
    destruct (reply_ok r) eqn:Hok; cbn; [|done].
    destruct (reply_json r) as [j|] eqn:Hj; cbn; [|done].
    intros _. split; [done|]. split; [done|]. exists r, j. split; [done|].
    split; [|done]. unfold reply_ok in Hok. lia.
  - intros (Hm & -> & r & j & -> & Hok & Hj & _). rewrite bool_decide_eq_false_2 by done.
    cbn. unfold reply_ok. rewrite Hj.
    destruct (Z.leb 400 (status_code r) && Z.ltb (status_code r) 600) eqn:Hr; [lia|done].
Qed.

(** X17. Every answer of [scrape_linkedin] is the preflight answer or
    carries the CORS header and has status 200, 400 or 500; with status 400
    or 500 the body has an [error] field holding a string and, unlike the
    storage handlers, no [success] field. *)
Theorem scrape_linkedin_failures request u :
  (scrape_linkedin request u).1 = preflight ∨
  headers (scrape_linkedin request u).1 = cors ∧
  (status (scrape_linkedin request u).1 = 200%Z ∨
   status (scrape_linkedin request u).1 ∈ [400%Z; 500%Z] ∧
   field "success" (scrape_linkedin request u).1 = None ∧
   ∃ e, field "error" (scrape_linkedin request u).1 = Some (JStr e)).
Proof.
  unfold scrape_linkedin. case_bool_decide; cbn; [by left|right].
  destruct (py_truthy (get_json request)); cbn.
  - destruct (answer u (get_json request)) as [r|e]; cbn.
    + destruct (reply_ok r); cbn.
      * destruct (reply_json r); cbn; [by split; [|left]|].
        split; [done|right]. split; [set_solver|]. split; [done|by eexists].
      * split; [done|right]. split; [set_solver|]. split; [done|by eexists].
    + split; [done|right]. split; [set_solver|]. split; [done|by eexists].
  - split; [done|right]. split; [set_solver|]. split; [done|by eexists].
Qed.

(** ** One user's requests and another user's objects *)

Lemma prefix_app_inv (a b s : string) :
  String.prefix (a +:+ b) s = true → ∃ t, s = a +:+ t ∧ String.prefix b t = true.
Proof.
  revert s. induction a as [|c a IH]; intros s Hp; [by exists s|].
  change (String c a +:+ b) with (String c (a +:+ b)) in Hp.
  destruct s as [|c' s]; [done|]. cbn in Hp.
  destruct (ascii_dec c c') as [<-|]; [|done].
  destruct (IH s Hp) as (t & -> & Ht). by exists t.
Qed.

Lemma string_app_inv_head (a t t' : string) : a +:+ t = a +:+ t' → t = t'.
Proof.
  induction a as [|c a IH]; [done|].
  change (String c a +:+ ?z) with (String c (a +:+ z)). intros [= Heq]. by apply IH.
Qed.

Lemma prefix_cons c a c' s :
  String.prefix (String c a) (String c' s) = true → c = c' ∧ String.prefix a s = true.
Proof.
  change (String.prefix (String c a) (String c' s))
    with (if ascii_dec c c' then String.prefix a s else false).
  by destruct (ascii_dec c c').
Qed.

Lemma no_slash_cons c a : no_slash (String c a) = true → c ≠ slash ∧ no_slash a = true.
Proof.
  cbn. intros [Hc Ha]%andb_true_iff. split; [|done].
  by apply negb_true_iff, bool_decide_eq_false in Hc.
Qed.

Lemma slash_free_prefixes (a b x y s : string) :
  no_slash a = true → no_slash b = true →
  String.prefix (a +:+ String slash x) s = true →
  String.prefix (b +:+ String slash y) s = true →
  a = b.
Proof.
  revert b s. induction a as [|c a IH]; intros [|c' b] s Ha Hb Hpa Hpb; [done|..].
  all: try change (String c a +:+ ?z) with (String c (a +:+ z)) in Hpa.
  all: try change (String c' b +:+ ?z) with (String c' (b +:+ z)) in Hpb.
  all: try change ("" +:+ ?z) with z in Hpa.
  all: try change ("" +:+ ?z) with z in Hpb.
  all: destruct s as [|c0 s]; [done|].
  all: apply prefix_cons in Hpa as [? Hpa]; apply prefix_cons in Hpb as [? Hpb].
  all: try apply no_slash_cons in Ha as [? Ha]; try apply no_slash_cons in Hb as [? Hb].
  all: subst.
  - done.
  - done.
  - f_equal. by apply (IH b s).
Qed.

Section users.
Context `{PyRuntime}.

Lemma user_prefix_inj user_id other name :
  no_slash (py_str user_id) = true → no_slash (py_str other) = true →
  String.prefix (user_prefix user_id) name = true →
  String.prefix (user_prefix other) name = true →
  py_str user_id = py_str other.
Proof.
  unfold user_prefix. intros Hu Ho Hpu Hpo.
  apply prefix_app_inv in Hpu as (t & -> & Hpu).
  apply prefix_app_inv in Hpo as (t' & Heq & Hpo).
  apply string_app_inv_head in Heq as <-.
  by apply (slash_free_prefixes _ _ "documents/" "documents/" t).
Qed.

Lemma delete_prefix_user_prefix user_id document_id name :
  String.prefix (delete_prefix user_id document_id) name = true →
  String.prefix (user_prefix user_id) name = true.
Proof.
  unfold delete_prefix. destruct (py_truthy document_id); [|done].
  replace (document_prefix user_id document_id)
    with (user_prefix user_id +:+ (py_str document_id +:+ "/"))
    by (unfold document_prefix, user_prefix; by rewrite !string_app_assoc).
  intros (t & -> & _)%prefix_app_inv. apply prefix_app.
Qed.

(** X18. A Delete of one user leaves the objects of every other user as
    they were, whatever fails, provided neither user id has a slash. *)
Theorem delete_keeps_other_users request user_id document_id other name w :
  lookup_request request user_id document_id →
  no_slash (py_str user_id) = true →
  no_slash (py_str other) = true →
  py_str other ≠ py_str user_id →
  String.prefix (user_prefix other) name = true →
  bucket (delete_embeddings request w).2 ≫= (.!! name) = bucket w ≫= (.!! name).
Proof.
  intros Hreq Hu Ho Hne Hname. rewrite (delete_embeddings_request _ _ _ _ Hreq).
  destruct (delete_lookup_removes user_id document_id w) as [[Hb _] _].
  destruct (bucket w) as [blobs|], (bucket (try_except _ _ w).2) as [blobs'|]; try done.
  cbn. destruct (Hb name) as [Hsame|[_ Hp]]; [done|].
  apply delete_prefix_user_prefix in Hp. destruct Hne.
  by apply (user_prefix_inj other user_id name).
Qed.

(** ** A document id Python takes as false *)

(** X19. Retrieve and Delete treat a [documentId] that Python takes as
    false (the empty string, 0, [false], an empty list or dict, [null]) as
    no [documentId] at all: two requests for the same user with such
    document ids get the same answer and leave the same world. *)
Theorem falsy_document_id_selects_all request request' user_id document_id document_id' w :
  lookup_request request user_id document_id →
  lookup_request request' user_id document_id' →
  py_truthy document_id = false →
  py_truthy document_id' = false →
  retrieve_embeddings request w = retrieve_embeddings request' w ∧
  delete_embeddings request w = delete_embeddings request' w.
Proof.
  intros Hreq Hreq' Hd Hd'.
  rewrite (retrieve_embeddings_request _ _ _ _ Hreq), (retrieve_embeddings_request _ _ _ _ Hreq').
  rewrite (delete_embeddings_request _ _ _ _ Hreq), (delete_embeddings_request _ _ _ _ Hreq').
  by rewrite Hd, Hd'.
Qed.

(** ** A Delete that fails half way *)

(** X20. Delete is not atomic: when the second deletion fails, the answer
    is status 500 with the message of the failure, the first listed object
    stays deleted and the others stay in the bucket. *)
Theorem delete_partial request user_id document_id blobs first second others e rest log :
  lookup_request request user_id document_id →
  blobs_with_prefix (delete_prefix user_id document_id) blobs = first :: second :: others →
  delete_embeddings request (World (Some blobs) (None :: None :: None :: Some e :: rest) log)
  = (Ok (failure 500 e),
     World (Some (delete first blobs)) rest
       (log ++ [BucketExists; ListBlobs (delete_prefix user_id document_id);
                DeleteBlob first; DeleteBlob second])).
Proof.
  intros Hreq Hlisting. rewrite (delete_embeddings_request _ _ _ _ Hreq).
  assert (is_Some (blobs !! first)) as Hfirst.
  { assert (first ∈ blobs_with_prefix (delete_prefix user_id document_id) blobs) as Hin
      by (rewrite Hlisting; left).
    by apply elem_of_blobs_with_prefix in Hin as [? _]. }
  unfold delete_prefix in *.
  unfold try_except, bucket_exists, delete_document, delete_all, list_blobs, storage_call.
  unmonad. destruct (py_truthy document_id); unmonad; rewrite Hlisting; unmonad.
  all: change (delete_blobs (first :: second :: others))
         with (blob_delete first;; blob_delete second;; delete_blobs others).
  all: unfold blob_delete, storage_call; unmonad.
  all: rewrite bool_decide_eq_true_2 by done; unmonad.
  all: by rewrite <-!(assoc (++)).
Qed.

End users.

(** ** Preflight requests *)

Section preflight.
Context `{PyRuntime}.

(** X21. A request with method [OPTIONS] gets the preflight answer from
    each of the four handlers, with no storage call and no post
    upstream. *)
Theorem preflight_answers request w u :
  method request = "OPTIONS" →
  save_embeddings request w = (Ok preflight, w) ∧
  retrieve_embeddings request w = (Ok preflight, w) ∧
  delete_embeddings request w = (Ok preflight, w) ∧
  scrape_linkedin request u = (preflight, u).
Proof.
  intros Hm.
  unfold save_embeddings, retrieve_embeddings, delete_embeddings, scrape_linkedin.
  by rewrite !bool_decide_eq_true_2 by done.
Qed.

End preflight.

(** * The theorems at the sample requests *)
Section samples.
Import Samples.
#[local] Existing Instance Reference.runtime.

Lemma save_request_sample user_id document_id items :
  save_request (save user_id document_id items)
    (JStr user_id) (JStr document_id) (JStr "resume.pdf") (JArr items) metadata.
Proof. split; [done|]. eexists. by split_and!. Defined.

Lemma lookup_request_one user_id document_id :
  lookup_request (lookup_one user_id document_id) (JStr user_id) (JStr document_id).
Proof. split; [done|]. eexists. by split_and!. Defined.

Lemma lookup_request_all user_id :
  lookup_request (lookup_all user_id) (JStr user_id) JNull.
Proof. split; [done|]. eexists. by split_and!. Defined.

(** C1 fails as stated: the empty string is a document id Save accepts,
    and a Retrieve that names the same user and the same document id does
    not return what was saved: in a bucket where the user has other
    documents it returns the chunks and the metadata of all of them. *)
Lemma save_then_retrieve_empty_id :
  (save_embeddings (save "u" "" chunks) (World (Some partial_documents) [] [])).1
  = Ok (saved (JStr "") (JStr "resume.pdf") chunks
          "gs://myformsnapper-embeddings/users/u/documents//chunks.json") ∧
  (retrieve_embeddings (lookup_one "u" "")
     (save_embeddings (save "u" "" chunks) (World (Some partial_documents) [] [])).2).1
  = Ok (retrieved (chunks ++ [JInt 1; JInt 2; JInt 3]) [metadata; JObj []; JNull]).
Proof. vm_compute. by split. Qed.

(** C1, as amended, at a sample request. *)
Lemma save_then_retrieve_witness :
  ∃ r1 w1 r2 w2,
    save_embeddings (save "user_123" "doc_456" chunks) empty_world = (Ok r1, w1) ∧
    status r1 = 200%Z ∧
    retrieve_embeddings (lookup_one "user_123" "doc_456") w1 = (Ok r2, w2) ∧
    status r2 = 200%Z ∧
    field "chunks" r2 = Some (JArr chunks) ∧
    field "metadata" r2 = Some (JArr [metadata]).
Proof.
  apply (save_then_retrieve _ _ _ _ _ _ _ _
           (save_request_sample "user_123" "doc_456" chunks)
           (lookup_request_one "user_123" "doc_456")).
  - done.
  - done.
  - done.
  - vm_compute. reflexivity.
  - vm_compute. reflexivity.
Defined.

(** C2 fails as stated: a Save request whose [userId], [documentId] and
    [fileName] are empty strings and whose [metadata] is empty is accepted,
    and the store is written under [users//documents//]. *)
Lemma save_accepts_empty_fields :
  ∃ w',
    save_embeddings save_nothing empty_world
    = (Ok (saved (JStr "") (JStr "") [JInt 1]
             "gs://myformsnapper-embeddings/users//documents//chunks.json"), w') ∧
    calls w'
    = [BucketExists; CreateBucket;
       Upload "users//documents//chunks.json" (json_dumps (JArr [JInt 1]));
       Upload "users//documents//metadata.json" (json_dumps (JObj []))].
Proof.
  exists (save_embeddings save_nothing empty_world).2.
  split; vm_compute; reflexivity.
Qed.

(** C2, as amended, at a sample request in a world whose bucket check fails. *)
Lemma save_validation_witness :
  ∃ r w',
    save_embeddings (save "user_123" "doc_456" chunks) unreachable_once = (Ok r, w') ∧
    (status r = 200%Z ∨ status r = 500%Z).
Proof.
  destruct (save_validation (save "user_123" "doc_456" chunks) _ unreachable_once
              ltac:(done) eq_refl) as (_ & _ & Hvalid).
  refine (Hvalid _ (JArr chunks) eq_refl).
  intros name Hname.
  repeat (apply elem_of_cons in Hname as [->|Hname]; [by eexists|]).
  by apply elem_of_nil in Hname.
Defined.

(** C3 at a sample request. *)
Lemma save_empty_chunks_witness :
  ∃ r, save_embeddings (save "user_123" "doc_456" []) empty_world = (Ok r, empty_world)
       ∧ status r = 400%Z.
Proof.
  eapply (save_empty_chunks (save "user_123" "doc_456" []) _ empty_world);
    [done|reflexivity|reflexivity].
Defined.

(** C4 fails as stated: when the bucket does not exist, no [chunks.json]
    exists, and Retrieve for one document answers 200 with the empty
    result, not 404. *)
Lemma retrieve_document_without_bucket :
  bucket empty_world = None ∧
  retrieve_embeddings (lookup_one "user_123" "doc_456") empty_world
  = (Ok no_documents, World None [] [BucketExists]) ∧
  status no_documents = 200%Z.
Proof. by vm_compute. Qed.


(** C4, as amended, at a document that has chunks and no metadata. *)
Lemma retrieve_document_cases_witness :
  ∃ r w',
    retrieve_embeddings (lookup_one "u" "a") (World (Some partial_documents) [] [])
    = (Ok r, w') ∧
    status r = 200%Z ∧
    field "chunks" r = Some (JArr [JInt 1; JInt 2]) ∧
    field "metadata" r = Some (JArr []) ∧
    field "documentsCount" r = Some (JInt 0).
Proof.
  exact (retrieve_document_cases (lookup_one "u" "a") (JStr "u") (JStr "a")
           (World (Some partial_documents) [] [])
           (lookup_request_one "u" "a") eq_refl [JInt 1; JInt 2] eq_refl).
Defined.


(** C5 at a bucket whose documents have one file, the other, or both. *)
Lemma retrieve_all_documents_witness :
  ∃ r w',
    retrieve_embeddings (lookup_all "u") (World (Some partial_documents) [] []) = (Ok r, w') ∧
    status r = 200%Z ∧
    bucket w' = Some partial_documents ∧
    field "chunks" r = Some (JArr [JInt 1; JInt 2; JInt 3]) ∧
    field "metadata" r = Some (JArr [JObj []; JNull]) ∧
    field "documentsCount" r = Some (JInt 2).
Proof.
  refine (retrieve_all_documents (lookup_all "u") (JStr "u") JNull
            (World (Some partial_documents) [] []) partial_documents
            (lookup_request_all "u") eq_refl eq_refl eq_refl _ _).
  - intros name Hin Hfile. apply list_elem_of_In in Hin. vm_compute in Hin.
    destruct Hin as [<-|[<-|[<-|[<-|[]]]]];
      vm_compute in Hfile; first [discriminate Hfile | by eexists; vm_compute].
  - intros name Hin Hfile. apply list_elem_of_In in Hin. vm_compute in Hin.
    destruct Hin as [<-|[<-|[<-|[<-|[]]]]];
      vm_compute in Hfile; first [discriminate Hfile | by eexists; vm_compute].
Defined.

(** C6, as amended, at a bucket with three documents. *)
Lemma delete_all_documents_witness :
  ∃ r w',
    delete_embeddings (lookup_all "u") (World (Some partial_documents) [] []) = (Ok r, w') ∧
    status r = 200%Z ∧
    field "documentsDeleted" r = Some (JInt 3).
Proof.
  assert (NoDup ["a"; "b"; "c"]) as Hdistinct.
  { repeat (apply NoDup_cons; split;
            [rewrite ?elem_of_cons, elem_of_nil; intuition discriminate|]).
    apply NoDup_nil_2. }
  assert (∀ doc, doc ∈ ["a"; "b"; "c"] → no_slash doc = true) as Hfree.
  { intros doc Hdoc. repeat (apply elem_of_cons in Hdoc as [->|Hdoc]; [reflexivity|]).
    by apply elem_of_nil in Hdoc. }
  assert (∀ name, name ∈ blobs_with_prefix (user_prefix (JStr "u")) partial_documents →
            ∃ doc file, doc ∈ ["a"; "b"; "c"]
                        ∧ name = user_prefix (JStr "u") +:+ doc +:+ "/" +:+ file) as Hnames.
  { intros name Hin. apply list_elem_of_In in Hin. vm_compute in Hin.
    destruct Hin as [<-|[<-|[<-|[<-|[]]]]];
      [exists "a", "chunks.json"|exists "b", "metadata.json"
      |exists "c", "chunks.json"|exists "c", "metadata.json"];
      (split; [by repeat constructor|reflexivity]). }
  assert (∀ doc, doc ∈ ["a"; "b"; "c"] →
            ∃ file, user_prefix (JStr "u") +:+ doc +:+ "/" +:+ file
                    ∈ blobs_with_prefix (user_prefix (JStr "u")) partial_documents) as Hdocs.
  { intros doc Hdoc. apply elem_of_cons in Hdoc as [->|Hdoc];
      [exists "chunks.json"; apply list_elem_of_In; vm_compute; tauto|].
    apply elem_of_cons in Hdoc as [->|Hdoc];
      [exists "metadata.json"; apply list_elem_of_In; vm_compute; tauto|].
    apply elem_of_cons in Hdoc as [->|Hdoc];
      [exists "chunks.json"; apply list_elem_of_In; vm_compute; tauto|].
    by apply elem_of_nil in Hdoc. }
  destruct (delete_all_documents (lookup_all "u") (JStr "u") JNull
              (World (Some partial_documents) [] []) partial_documents
              (lookup_request_all "u") eq_refl eq_refl eq_refl)
    as (r & w' & blobs' & Hrun & Hstatus & _ & _ & _ & Hcount).
  exists r, w'. split; [exact Hrun|]. split; [exact Hstatus|].
  exact (Hcount ["a"; "b"; "c"] eq_refl Hdistinct Hfree Hnames Hdocs).
Defined.

(** C6 fails as stated: after saving the two documents [x/y] and [x/z] of
    user [u], which Retrieve tells apart, Delete for all the documents of
    [u] reports one document.  And an object [users/u/documents/readme] has
    a fourth segment and is deleted, but counts for no document. *)
Lemma delete_all_undercounts :
  let w := after [save "u" "x/y" chunks; save "u" "x/z" [chunk 7 "other"]] empty_world in
  (retrieve_embeddings (lookup_one "u" "x/y") w).1 = Ok (retrieved chunks [metadata]) ∧
  (retrieve_embeddings (lookup_one "u" "x/z") w).1
  = Ok (retrieved [chunk 7 "other"] [metadata]) ∧
  (delete_embeddings (lookup_all "u") w).1
  = Ok (deleted 1 "Successfully deleted 1 documents for user u") ∧
  fourth_segment "users/u/documents/readme" = Some "readme" ∧
  (delete_embeddings (lookup_all "u")
     (World (Some {["users/u/documents/readme" := "notes"]}) [] [])).1
  = Ok (deleted 0 "Successfully deleted 0 documents for user u").
Proof. vm_compute. by split_and!. Qed.

(** C7 fails as stated: a Delete that supplies the empty string as document
    id, for which nothing is listed under the document's prefix, answers
    neither 404 nor [documentsDeleted = 1]: it deletes the three documents
    of the user and reports 3. *)
Lemma delete_empty_id_deletes_all :
  blobs_with_prefix (document_prefix (JStr "u") (JStr "")) partial_documents = [] ∧
  (delete_embeddings (lookup_one "u" "") (World (Some partial_documents) [] [])).1
  = Ok (deleted 3 "Successfully deleted 3 documents for user u") ∧
  status (deleted 3 "Successfully deleted 3 documents for user u") = 200%Z ∧
  bucket (delete_embeddings (lookup_one "u" "") (World (Some partial_documents) [] [])).2
  = Some ∅.
Proof. vm_compute. by split_and!. Qed.

(** C7, as amended, at a document with two objects. *)
Lemma delete_document_cases_witness :
  ∃ r w' blobs',
    delete_embeddings (lookup_one "u" "c") (World (Some partial_documents) [] [])
    = (Ok r, w') ∧
    status r = 200%Z ∧
    field "documentsDeleted" r = Some (JInt 1) ∧
    bucket w' = Some blobs' ∧
    (∀ name, name ∈ ["users/u/documents/c/chunks.json"; "users/u/documents/c/metadata.json"] →
             blobs' !! name = None) ∧
    (∀ name, name ∉ ["users/u/documents/c/chunks.json"; "users/u/documents/c/metadata.json"] →
             blobs' !! name = partial_documents !! name) ∧
    calls w'
    = [] ++ [BucketExists; ListBlobs "users/u/documents/c/"]
      ++ map DeleteBlob
           ["users/u/documents/c/chunks.json"; "users/u/documents/c/metadata.json"].
Proof.
  exact (delete_document_cases (lookup_one "u" "c") (JStr "u") (JStr "c")
           (World (Some partial_documents) [] [])
           (lookup_request_one "u" "c") eq_refl).
Defined.

(** C8 at a sample request. *)
Lemma save_writes_two_objects_witness :
  let chunks_blob_name := "users/user_123/documents/doc_456/chunks.json" in
  let metadata_blob_name := "users/user_123/documents/doc_456/metadata.json" in
  let r := saved (JStr "doc_456") (JStr "resume.pdf") chunks
             ("gs://myformsnapper-embeddings/" +:+ chunks_blob_name) in
  let w' := after [save "user_123" "doc_456" chunks] empty_world in
  (∃ pre,
     calls w' = calls empty_world ++ pre
                ++ [Upload chunks_blob_name (json_dumps (JArr chunks));
                    Upload metadata_blob_name (json_dumps metadata)] ∧
     Forall (λ c, c = BucketExists ∨ c = CreateBucket) pre) ∧
  bucket w' = Some (<[metadata_blob_name := json_dumps metadata]>
                      (<[chunks_blob_name := json_dumps (JArr chunks)]>
                         (default ∅ (bucket empty_world)))) ∧
  field "chunksSaved" r = Some (JInt 2) ∧
  field "storageUrl" r
  = Some (JStr ("gs://myformsnapper-embeddings/" +:+ chunks_blob_name)).
Proof.
  cbv zeta.
  apply (save_writes_two_objects (save "user_123" "doc_456" chunks)
           (JStr "user_123") (JStr "doc_456") (JStr "resume.pdf") chunks metadata empty_world
           _ _ (save_request_sample "user_123" "doc_456" chunks)).
  - vm_compute. reflexivity.
  - reflexivity.
Defined.

(** C10 fails as stated: when there is no bucket and the check for it
    raises, the error is swallowed, the bucket is not created, the upload of
    [chunks.json] fails, the upload of [metadata.json] is not attempted and
    Save answers 500; the same request in the same world without the fault
    answers 200. *)
Lemma save_fails_after_swallowed_error :
  ∃ r w' r0 w0,
    save_embeddings (save "user_123" "doc_456" chunks) never_created = (Ok r, w') ∧
    status r = 500%Z ∧
    bucket w' = None ∧
    calls w'
    = [BucketExists;
       Upload "users/user_123/documents/doc_456/chunks.json" (json_dumps (JArr chunks))] ∧
    save_embeddings (save "user_123" "doc_456" chunks) empty_world = (Ok r0, w0) ∧
    status r0 = 200%Z.
Proof.
  exists (failure 500 not_found),
         (save_embeddings (save "user_123" "doc_456" chunks) never_created).2,
         (saved (JStr "doc_456") (JStr "resume.pdf") chunks
            "gs://myformsnapper-embeddings/users/user_123/documents/doc_456/chunks.json"),
         (save_embeddings (save "user_123" "doc_456" chunks) empty_world).2.
  vm_compute. by split_and!.
Qed.

(** C10, as amended, in a world whose bucket check fails. *)
Lemma save_swallows_bucket_errors_witness :
  let chunks_blob_name := "users/user_123/documents/doc_456/chunks.json" in
  let metadata_blob_name := "users/user_123/documents/doc_456/metadata.json" in
  let w1 := World (Some ∅) [] [BucketExists] in
  bucket w1 = bucket unreachable_once ∧
  ∃ r w' o,
    save_embeddings (save "user_123" "doc_456" chunks) unreachable_once = (Ok r, w') ∧
    (upload_from_string chunks_blob_name (json_dumps (JArr chunks));;
     upload_from_string metadata_blob_name (json_dumps metadata)) w1 = (o, w') ∧
    match o with
    | Ok _ => status r = 200%Z
    | Raise e' => r = failure 500 e'
    end ∧
    (∀ blobs, bucket unreachable_once = Some blobs → Forall (.= None) (take 2 (faults w1)) →
       status r = 200%Z ∧
       bucket w' = Some (<[metadata_blob_name := json_dumps metadata]>
                           (<[chunks_blob_name := json_dumps (JArr chunks)]> blobs))) ∧
    (bucket unreachable_once = None → status r = 500%Z ∧ bucket w' = None).
Proof.
  cbv zeta.
  apply (save_swallows_bucket_errors (save "user_123" "doc_456" chunks)
           (JStr "user_123") (JStr "doc_456") (JStr "resume.pdf") chunks metadata
           unreachable_once "503 Service Unavailable" (World (Some ∅) [] [BucketExists])
           (save_request_sample "user_123" "doc_456" chunks)).
  - done.
  - reflexivity.
Defined.

(** X5 at a Delete for all the documents of a user whose second deletion
    fails. *)
Lemma delete_embeddings_removes_witness :
  only_removes (λ name, String.prefix (delete_prefix (JStr "u") JNull) name = true)
    second_delete_fails (delete_embeddings (lookup_all "u") second_delete_fails).2.
Proof.
  exact (delete_embeddings_removes (lookup_all "u") (JStr "u") JNull second_delete_fails
           (lookup_request_all "u")).
Defined.

(** X6 at a sample request whose second upload fails. *)
Lemma save_embeddings_writes_witness :
  only_writes [chunks_name (JStr "user_123") (JStr "doc_456");
               metadata_name (JStr "user_123") (JStr "doc_456")]
    second_upload_fails
    (save_embeddings (save "user_123" "doc_456" chunks) second_upload_fails).2.
Proof.
  exact (save_embeddings_writes _ _ _ _ _ _ second_upload_fails
           (save_request_sample "user_123" "doc_456" chunks)).
Defined.

(** X8 at a sample request. *)
Lemma save_partial_write_witness :
  save_embeddings (save "user_123" "doc_456" chunks) second_upload_fails
  = (Ok (failure 500 "503 Service Unavailable"),
     World (Some (<[chunks_name (JStr "user_123") (JStr "doc_456")
                    := json_dumps (JArr chunks)]> ∅))
       []
       ([] ++ [BucketExists;
               Upload (chunks_name (JStr "user_123") (JStr "doc_456")) (json_dumps (JArr chunks));
               Upload (metadata_name (JStr "user_123") (JStr "doc_456")) (json_dumps metadata)])).
Proof.
  apply (save_partial_write _ _ _ _ _ _ ∅ _ [] []
           (save_request_sample "user_123" "doc_456" chunks)).
  done.
Defined.

(** X10 at a world whose next storage call fails. *)
Lemma bucket_check_fails_witness :
  retrieve_embeddings (lookup_one "u" "a") unreachable_once
  = (Ok (failure 500 "503 Service Unavailable"), World (Some ∅) [] ([] ++ [BucketExists])) ∧
  delete_embeddings (lookup_one "u" "a") unreachable_once
  = (Ok (failure 500 "503 Service Unavailable"), World (Some ∅) [] ([] ++ [BucketExists])).
Proof.
  exact (bucket_check_fails (lookup_one "u" "a") (JStr "u") (JStr "a") (Some ∅)
           "503 Service Unavailable" [] [] (lookup_request_one "u" "a")).
Defined.

(** X11 at a bucket whose [chunks.json] is cut short. *)
Lemma retrieve_corrupt_chunks_witness :
  ∃ r,
    retrieve_embeddings (lookup_one "u" "a") (World (Some corrupt_chunks) [] [])
    = (Ok r,
       World (Some corrupt_chunks) []
         ([] ++ [BucketExists;
                 BlobExists (chunks_name (JStr "u") (JStr "a"));
                 Download (chunks_name (JStr "u") (JStr "a"))])) ∧
    status r = 500%Z ∧
    headers r = cors ∧
    field "success" r = Some (JBool false) ∧
    ∃ e, field "error" r = Some (JStr e).
Proof.
  apply (retrieve_corrupt_chunks (lookup_one "u" "a") (JStr "u") (JStr "a") corrupt_chunks []
           "[1, 2" (lookup_request_one "u" "a")).
  - reflexivity.
  - vm_compute. reflexivity.
  - vm_compute. reflexivity.
Defined.

(** X12 at a sample request. *)
Lemma save_delete_retrieve_witness :
  ∃ r1 w1 r2 w2 r3 w3 r4 w4,
    save_embeddings (save "user_123" "doc_456" chunks) empty_world = (Ok r1, w1) ∧
    status r1 = 200%Z ∧
    delete_embeddings (lookup_one "user_123" "doc_456") w1 = (Ok r2, w2) ∧
    status r2 = 200%Z ∧
    field "documentsDeleted" r2 = Some (JInt 1) ∧
    retrieve_embeddings (lookup_one "user_123" "doc_456") w2 = (Ok r3, w3) ∧
    status r3 = 404%Z ∧
    delete_embeddings (lookup_one "user_123" "doc_456") w3 = (Ok r4, w4) ∧
    status r4 = 404%Z.
Proof.
  apply (save_delete_retrieve _ _ _ _ _ _ _ _
           (save_request_sample "user_123" "doc_456" chunks)
           (lookup_request_one "user_123" "doc_456")).
  - done.
  - reflexivity.
  - reflexivity.
Defined.

(** X13 at a bucket with three documents. *)
Lemma delete_all_then_retrieve_all_witness :
  ∃ r1 w1 r2 w2,
    delete_embeddings (lookup_all "u") (World (Some partial_documents) [] []) = (Ok r1, w1) ∧
    status r1 = 200%Z ∧
    retrieve_embeddings (lookup_all "u") w1 = (Ok r2, w2) ∧ status r2 = 200%Z ∧
    field "chunks" r2 = Some (JArr []) ∧
    field "metadata" r2 = Some (JArr []) ∧
    field "documentsCount" r2 = Some (JInt 0) ∧
    bucket w2 = bucket w1.
Proof.
  exact (delete_all_then_retrieve_all (lookup_all "u") (JStr "u") JNull
           (World (Some partial_documents) [] []) (lookup_request_all "u") eq_refl eq_refl).
Defined.

(** X14 at a sample request. *)
Lemma save_then_retrieve_all_witness :
  ∃ r1 w1 r2 w2,
    save_embeddings (save "user_123" "doc_456" chunks) empty_world = (Ok r1, w1) ∧
    status r1 = 200%Z ∧
    retrieve_embeddings (lookup_all "user_123") w1 = (Ok r2, w2) ∧ status r2 = 200%Z ∧
    field "chunks" r2 = Some (JArr chunks) ∧
    field "metadata" r2 = Some (JArr [metadata]) ∧
    field "documentsCount" r2 = Some (JInt 1).
Proof.
  apply (save_then_retrieve_all _ _ _ _ _ _ _ _ _
           (save_request_sample "user_123" "doc_456" chunks)
           (lookup_request_all "user_123")).
  - reflexivity.
  - done.
  - reflexivity.
  - reflexivity.
  - reflexivity.
  - intros blobs name Hb. discriminate Hb.
  - vm_compute. reflexivity.
  - vm_compute. reflexivity.
Defined.

(** X18 at a Delete of user [u] and an object of user [v]. *)
Lemma delete_keeps_other_users_witness :
  bucket (delete_embeddings (lookup_all "u") (World (Some two_users) [] [])).2
    ≫= (.!! "users/v/documents/a/chunks.json")
  = bucket (World (Some two_users) [] []) ≫= (.!! "users/v/documents/a/chunks.json").
Proof.
  apply (delete_keeps_other_users (lookup_all "u") (JStr "u") JNull (JStr "v")
           "users/v/documents/a/chunks.json" (World (Some two_users) [] [])
           (lookup_request_all "u")).
  - reflexivity.
  - reflexivity.
  - discriminate.
  - reflexivity.
Defined.

(** X19 at a request without [documentId] and one whose [documentId] is the
    empty string. *)
Lemma falsy_document_id_selects_all_witness :
  retrieve_embeddings (lookup_all "u") (World (Some partial_documents) [] [])
  = retrieve_embeddings (lookup_one "u" "") (World (Some partial_documents) [] []) ∧
  delete_embeddings (lookup_all "u") (World (Some partial_documents) [] [])
  = delete_embeddings (lookup_one "u" "") (World (Some partial_documents) [] []).
Proof.
  exact (falsy_document_id_selects_all (lookup_all "u") (lookup_one "u" "") (JStr "u")
           JNull (JStr "") (World (Some partial_documents) [] [])
           (lookup_request_all "u") (lookup_request_one "u" "") eq_refl eq_refl).
Defined.

(** X20 at a bucket with three documents. *)
Lemma delete_partial_witness :
  delete_embeddings (lookup_all "u") second_delete_fails
  = (Ok (failure 500 "503 Service Unavailable"),
     World (Some (delete "users/u/documents/a/chunks.json" partial_documents)) []
       ([] ++ [BucketExists; ListBlobs (delete_prefix (JStr "u") JNull);
               DeleteBlob "users/u/documents/a/chunks.json";
               DeleteBlob "users/u/documents/b/metadata.json"])).
Proof.
  apply (delete_partial (lookup_all "u") (JStr "u") JNull partial_documents
           "users/u/documents/a/chunks.json" "users/u/documents/b/metadata.json"
           ["users/u/documents/c/chunks.json"; "users/u/documents/c/metadata.json"]
           "503 Service Unavailable" [] [] (lookup_request_all "u")).
  vm_compute. reflexivity.
Defined.

(** X21 at a preflight request. *)
Lemma preflight_answers_witness :
  save_embeddings (Request "OPTIONS" JNull) empty_world = (Ok preflight, empty_world) ∧
  retrieve_embeddings (Request "OPTIONS" JNull) empty_world = (Ok preflight, empty_world) ∧
  delete_embeddings (Request "OPTIONS" JNull) empty_world = (Ok preflight, empty_world) ∧
  scrape_linkedin (Request "OPTIONS" JNull) (answers 200 JNull)
  = (preflight, answers 200 JNull).
Proof.
  exact (preflight_answers (Request "OPTIONS" JNull) empty_world (answers 200 JNull) eq_refl).
Defined.

End samples.
